(** * SimulaQron: command line interface and native-mode node template

    A shallow embedding of

    - [src/simulaqron/SimulaQron.py]: the [start] and [stop] commands, the
      supervisor daemon's [run] method and the [set] commands for the
      retry and timeout settings;
    - [src/examples/nativeMode/template/nodeTest.py]: [runClientNode],
      the [localNode] server object and [main].

    Python values are modelled the way the code uses them: [None]-able
    arguments as [option], strings as [string], the pid folder and the
    settings object as finite maps, and calls with an effect on the outside
    world as entries of an effect log threaded through a small state monad. *)

From Stdlib Require Import ZArith Ascii String.
From stdpp Require Import base option list strings pretty gmap.

Local Open Scope string_scope.
Local Open Scope list_scope.

(** ** Python built-ins used by the two files *)

Module Py.

(** Truth value of an [int] or [None]: [None] and [0] are falsy. *)
Definition truthy_int (x : option Z) : bool :=
  match x with
  | None => false
  | Some n => negb (Z.eqb n 0)
  end.

(** Truth value of a [str] or [None]: [None] and the empty string are falsy. *)
Definition truthy_str (x : option string) : bool :=
  match x with
  | None => false
  | Some EmptyString => false
  | Some (String _ _) => true
  end.

(** [s.split(sep)] for a one-character separator: the fields between the
    separators, empty fields included; never the empty list. *)
Fixpoint split (sep : ascii) (s : string) : list string :=
  match s with
  | EmptyString => [EmptyString]
  | String c s' =>
      if Ascii.eqb c sep then EmptyString :: split sep s'
      else match split sep s' with
           | [] => [String c EmptyString]
           | field :: fields => String c field :: fields
           end
  end.

(** [sub in s] for two strings: [sub] occurs in [s] as a substring. *)
Fixpoint contains (sub s : string) : bool :=
  String.prefix sub s ||
  match s with
  | EmptyString => false
  | String _ s' => contains sub s'
  end.

(** The elements a [for] loop over a string visits: its characters. *)
Fixpoint chars (s : string) : list string :=
  match s with
  | EmptyString => []
  | String c s' => String c EmptyString :: chars s'
  end.

(** [range(n)] for an [int] n: empty when [n <= 0]. *)
Definition range (n : Z) : list nat := seq 0 (Z.to_nat n).

(** Last character of a string, if any. *)
Fixpoint last_char (s : string) : option ascii :=
  match s with
  | EmptyString => None
  | String c EmptyString => Some c
  | String _ s' => last_char s'
  end.

(** [os.path.join(a, b)] on POSIX: an absolute [b] replaces [a]; otherwise
    the two are joined by one slash unless [a] is empty or ends in one. *)
Definition path_join (a b : string) : string :=
  match b with
  | String "/"%char _ => b
  | _ =>
      match last_char a with
      | None => b
      | Some "/"%char => a +:+ b
      | Some _ => a +:+ "/" +:+ b
      end
  end.

(** [sep.join(l)]. *)
Fixpoint join (sep : string) (l : list string) : string :=
  match l with
  | [] => EmptyString
  | x :: rest =>
      match rest with
      | [] => x
      | _ :: _ => x +:+ sep +:+ join sep rest
      end
  end.

(** [s.count(c)] for a one-character [c]. *)
Fixpoint count (c : ascii) (s : string) : nat :=
  match s with
  | EmptyString => 0
  | String a s' => (if Ascii.eqb a c then 1 else 0) + count c s'
  end.

(** [s.endswith(suffix)]: some tail of [s] is [suffix]. *)
Fixpoint endswith (s suffix : string) : bool :=
  String.eqb s suffix ||
  match s with
  | EmptyString => false
  | String _ s' => endswith s' suffix
  end.

(** [s * n]. *)
Fixpoint repeat_str (s : string) (n : nat) : string :=
  match n with
  | O => EmptyString
  | S n' => s +:+ repeat_str s n'
  end.

(** [s[:-1]]: all but the last character; the empty string stays empty. *)
Fixpoint drop_last (s : string) : string :=
  match s with
  | EmptyString => EmptyString
  | String c s' =>
      match s' with
      | EmptyString => EmptyString
      | String _ _ => String c (drop_last s')
      end
  end.

(** [template.format] on the arguments [args], for templates made of literal text, the
    doubled braces that stand for one brace, and automatic fields [{}],
    each replaced by the next argument; arguments left over are ignored.
    [None] when a field finds no argument ([IndexError]) or the template
    has another brace construct. *)
Fixpoint format (template : string) (args : list string) : option string :=
  match template with
  | EmptyString => Some EmptyString
  | String c rest =>
      if Ascii.eqb c "{" then
        match rest with
        | String c' rest' =>
            if Ascii.eqb c' "}" then
              match args with
              | [] => None
              | a :: args' => String.append a <$> format rest' args'
              end
            else if Ascii.eqb c' "{" then String "{" <$> format rest' args
            else None
        | EmptyString => None
        end
      else if Ascii.eqb c "}" then
        match rest with
        | String c' rest' =>
            if Ascii.eqb c' "}" then String "}" <$> format rest' args else None
        | EmptyString => None
        end
      else String c <$> format rest args
  end.

(** [s[len(prefix):]] when [s.startswith(prefix)]. *)
Fixpoint strip_prefix (prefix s : string) : option string :=
  match prefix with
  | EmptyString => Some s
  | String a prefix' =>
      match s with
      | EmptyString => None
      | String b s' => if Ascii.eqb a b then strip_prefix prefix' s' else None
      end
  end.

(** The string of the given bytes. *)
Definition bytes (l : list nat) : string :=
  fold_right (λ n s, String (ascii_of_nat n) s) EmptyString l.

(** The characters [str.strip] removes, each in its UTF-8 encoding: the
    ASCII ones (tab to carriage return, the four separators 28 to 31 and
    the space), then U+0085, U+00A0, U+1680, U+2000 to U+200A, U+2028,
    U+2029, U+202F, U+205F and U+3000. *)
Definition whitespace : list string :=
  Eval vm_compute in
  bytes <$>
    [[9]; [10]; [11]; [12]; [13]; [28]; [29]; [30]; [31]; [32];
     [194; 133]; [194; 160]; [225; 154; 128];
     [226; 128; 128]; [226; 128; 129]; [226; 128; 130]; [226; 128; 131];
     [226; 128; 132]; [226; 128; 133]; [226; 128; 134]; [226; 128; 135];
     [226; 128; 136]; [226; 128; 137]; [226; 128; 138];
     [226; 128; 168]; [226; 128; 169]; [226; 128; 175];
     [226; 129; 159]; [227; 128; 128]].

(** [s] without its first character when that is one of [table]. *)
Fixpoint drop_first (table : list string) (s : string) : option string :=
  match table with
  | [] => None
  | w :: table' =>
      match strip_prefix w s with
      | Some r => Some r
      | None => drop_first table' s
      end
  end.

Fixpoint lstrip_go (fuel : nat) (s : string) : string :=
  match fuel with
  | O => s
  | S fuel' =>
      match drop_first whitespace s with
      | Some r => lstrip_go fuel' r
      | None => s
      end
  end.

(** [s.lstrip()]: leading whitespace removed. *)
Definition lstrip (s : string) : string := lstrip_go (String.length s) s.

(** [s.isspace() or not s]: nothing but whitespace. *)
Definition all_space (s : string) : bool := String.eqb (lstrip s) EmptyString.

(** [s.rstrip()]: the longest tail of whitespace removed. *)
Fixpoint rstrip (s : string) : string :=
  match s with
  | EmptyString => EmptyString
  | String c s' => if all_space s then EmptyString else String c (rstrip s')
  end.

(** [s.strip()]. *)
Definition strip (s : string) : string := rstrip (lstrip s).

(** A string of whitespace characters only. *)
Inductive blank : string → Prop :=
  | blank_nil : blank EmptyString
  | blank_cons (w r : string) : w ∈ whitespace → blank r → blank (w +:+ r).

(** [s] starts, or ends, with a whitespace character. *)
Definition starts_with_space (s : string) : Prop :=
  ∃ w r, w ∈ whitespace ∧ s = w +:+ r.

Definition ends_with_space (s : string) : Prop :=
  ∃ r w, w ∈ whitespace ∧ s = r +:+ w.

End Py.

(** ** Errors

    The error taxonomy of the specification (section 7).  A Python call
    either returns or raises. *)

Inductive error :=
  | ConnectionTimeout (endpoint : string) (elapsed : N)
  | RegistryError (node : string)
  | ServerBindError (port : N)
  | DuplicateInstanceError (network : string).

Inductive outcome :=
  | Return
  | Raise (e : error).

(** ** [src/simulaqron/SimulaQron.py] *)

Module SimulaQron.

(** *** The supervisor daemon *)

(** The attributes [__init__] stores (lines 17-22); the pid file is the one
    handed to [run.RunDaemon]. *)
Record SimulaQronDaemon := Daemon {
  pidfile : string;
  name : option string;
  nrnodes : option Z;
  nodes : option string;
  topology : option string;
}.

(** The value bound to the local variable [nodes] when line 38 is reached:
    a list built by lines 28-34, or [self.nodes] itself (line 36), which
    on that branch is [None] or the empty string. *)
Inductive nodes_arg :=
  | NodesNone
  | NodesStr (s : string)
  | NodesList (l : list string).

(** Lines 28-31: the explicitly listed names. *)
Definition explicit_nodes (d : SimulaQronDaemon) : list string :=
  match nodes d with
  | Some s => if Py.truthy_str (Some s) then Py.split "," s else []
  | None => []
  end.

(** ["Node{}".format(i)] for a non-negative [int] i. *)
Definition node_name (i : nat) : string := "Node" +:+ pretty i.

(** Lines 33-34: the names appended when [nrnodes] exceeds the explicit list. *)
Definition padding (d : SimulaQronDaemon) (listed : list string) : list string :=
  match nrnodes d with
  | Some n =>
      if Py.truthy_int (Some n) && (Z.of_nat (length listed) <? n)%Z
      then node_name <$> Py.range (n - Z.of_nat (length listed))
      else []
  | None => []
  end.

(** Lines 27-36. *)
Definition run_nodes (d : SimulaQronDaemon) : nodes_arg :=
  if Py.truthy_int (nrnodes d) || Py.truthy_str (nodes d) || Py.truthy_str (topology d)
  then NodesList (explicit_nodes d ++ padding d (explicit_nodes d))
  else match nodes d with
       | None => NodesNone
       | Some s => NodesStr s
       end.

(** What [run] does to the outside world: it starts a [Network] built from
    the name, the nodes and the topology (lines 38-39), and it sleeps
    (line 42; the duration is in milliseconds, [time.sleep(0.1)] is 100). *)
Inductive run_effect :=
  | NetworkStart (name : option string) (nodes : nodes_arg) (topology : option string)
  | Sleep (ms : N).

(** A [while] loop run for at most [fuel] tests of its condition: it has
    either left the loop or is still inside it when the fuel is spent. *)
Inductive loop_status :=
  | Exited
  | StillLooping.

Fixpoint py_while {St : Type} (cond : St → bool) (body : St → St)
    (fuel : nat) (s : St) : loop_status * St :=
  match fuel with
  | O => (StillLooping, s)
  | S fuel' => if cond s then py_while cond body fuel' (body s) else (Exited, s)
  end.

Definition time_sleep (ms : N) (log : list run_effect) : list run_effect :=
  log ++ [Sleep ms].

(** [SimulaQronDaemon.run] (lines 24-42), observed for [fuel] iterations of
    its loop: the status and the effects so far.  [Exited] stands for the
    method returning, since the loop is its last statement. *)
Definition run (d : SimulaQronDaemon) (fuel : nat) : loop_status * list run_effect :=
  let nodes := run_nodes d in
  let log := [NetworkStart (name d) nodes (topology d)] in
  py_while (λ _, true) (time_sleep 100) fuel log.

(** *** The command line: [start] and [stop] *)

(** Calls that act on the outside world. *)
Inductive effect :=
  | SetupCqcFiles
  | LogWarning (msg : string)
  | DaemonStart (d : SimulaQronDaemon)
  | DaemonStop (d : SimulaQronDaemon).

(** The part of the world the commands read and write: the pid records
    (path of the pid file to the instance running under it) and the
    effects performed so far. *)
Record world := World {
  pid_records : gmap string SimulaQronDaemon;
  effects : list effect;
}.

(** Commands thread the world. *)
Definition cmd (A : Type) : Type := world → A * world.

Definition ret {A : Type} (a : A) : cmd A := λ w, (a, w).

Definition bind {A B : Type} (m : cmd A) (k : A → cmd B) : cmd B :=
  λ w, let '(a, w') := m w in k a w'.

Notation "'do' x <- m ; k" := (bind m (λ x, k))
  (at level 10, x name, m at level 100, k at level 200).
Notation "m ;;; k" := (bind m (λ _, k))
  (at level 100, k at level 200, right associativity).

Definition perform (e : effect) : cmd unit :=
  λ w, (tt, World (pid_records w) (effects w ++ [e])).

(** [os.path.exists] on a pid file. *)
Definition path_exists (path : string) : cmd bool :=
  λ w, (bool_decide (is_Some (pid_records w !! path)), w).

Definition logging_warning (msg : string) : cmd unit := perform (LogWarning msg).

(** Modelled from the spec: [manage_nodes.setup_cqc_files] is not in src/.
    It prepares configuration files and is outside the pid folder, so it
    is recorded as an effect and leaves the pid records alone. *)
Definition setup_cqc_files : cmd unit := perform SetupCqcFiles.

(** Modelled from the spec: [RunDaemon.start] of the [daemons] package is
    not in src/.  Section 3 (NetworkInstance): a started instance is
    identified by its pid record, so the daemon is recorded under its
    pid file. *)
Definition daemon_start (d : SimulaQronDaemon) : cmd unit :=
  λ w, (tt, World (<[pidfile d := d]> (pid_records w)) (effects w ++ [DaemonStart d])).

(** Modelled from the spec: [RunDaemon.stop] of the [daemons] package is
    not in src/.  Section 3: a later invocation locates the instance by
    its pid record and terminates it, which removes the record. *)
Definition daemon_stop (d : SimulaQronDaemon) : cmd unit :=
  λ w, (tt, World (delete (pidfile d) (pid_records w)) (effects w ++ [DaemonStop d])).

Section Commands.

(** [os.path.dirname(os.path.abspath(__file__))]: where the module is
    installed. *)
Variable module_dir : string.

(** Line 13. *)
Definition PID_FOLDER : string := Py.path_join module_dir ".simulaqron_pids".

(** Lines 88 and 111: the pid file of the network called [name]. *)
Definition pidfile_of (name : string) : string :=
  Py.path_join PID_FOLDER ("simulaqron_network_" +:+ name +:+ ".pid").

(** The pid file of the network called "default". *)
Definition default_pidfile : string :=
  Py.path_join PID_FOLDER "simulaqron_network_default.pid".

(** Lines 86-87 and 109-110. *)
Definition name_or_default (name : option string) : string :=
  match name with
  | None => "default"
  | Some n => n
  end.

(** [start] (lines 83-93). *)
Definition start (name : option string) (nrnodes : option Z)
    (nodes topology : option string) : cmd outcome :=
  setup_cqc_files ;;;
  let name := name_or_default name in
  let pidfile := pidfile_of name in
  do running <- path_exists pidfile;
  if running then
    logging_warning ("Network with name " +:+ name +:+ " is already running") ;;;
    ret Return
  else
    let d := Daemon pidfile (Some name) nrnodes nodes topology in
    daemon_start d ;;;
    ret Return.

(** [stop] (lines 107-116). *)
Definition stop (name : option string) : cmd outcome :=
  let name := name_or_default name in
  let pidfile := pidfile_of name in
  do running <- path_exists pidfile;
  if negb running then
    logging_warning ("Network with name " +:+ name +:+ " is not running") ;;;
    ret Return
  else
    let d := Daemon pidfile None None None None in
    daemon_stop d ;;;
    ret Return.

End Commands.

(** A world with one network running under the default name. *)
Definition default_running (dir : string) : world :=
  World {[ pidfile_of dir "default" :=
             Daemon (pidfile_of dir "default") (Some "default") None None None ]} [].

(** *** The [set] commands for the retry and timeout settings *)

(** The settings object: section and key to the stored string. *)
Abbreviation settings := (gmap (string * string) string).

(** Modelled from the spec: [simulaqron_settings.set_setting] is not in
    src/.  Section 9 treats the settings as one configuration value; the
    call stores [value] under [key] of [section] and nothing else. *)
Definition set_setting (section key value : string) (s : settings) : settings :=
  <[(section, key) := value]> s.

Section SetCommands.

(** Python floats and [str] on them. *)
Variable float : Type.
Variable str : float → string.

(** [set conn_retry_time] (lines 173-177). *)
Definition conn_retry_time (value : float) (s : settings) : settings :=
  set_setting "BACKEND" "waittime" (str value) s.

(** [set recv_timeout] (lines 180-185). *)
Definition recv_timeout (value : float) (s : settings) : settings :=
  let s := set_setting "BACKEND" "recvtimeout" (str value) s in
  set_setting "BACKEND" "recveprtimeout" (str value) s.

(** [set recv_retry_time] (lines 188-192). *)
Definition recv_retry_time (value : float) (s : settings) : settings :=
  set_setting "BACKEND" "waittimerecv" (str value) s.

End SetCommands.

(** Line 239: [click.Choice("on", "off")] binds the first parameter of
    [Choice], the choices, to the string "on" (and the second,
    [case_sensitive], to "off"). *)
Definition noisy_qubits_choices : string := "on".

(** The [click] package is not part of the repository, and its releases
    test a value against the choices in two ways.  Up to 7.1 [convert]
    first tests [value in self.choices], which on a string is a substring
    test. *)
Definition accepted_by_containment (value : string) : bool :=
  Py.contains value noisy_qubits_choices.

(** From 8.0 on [convert] iterates over the choices, which on a string
    visits its characters. *)
Definition accepted_by_iteration (value : string) : bool :=
  bool_decide (value ∈ Py.chars noisy_qubits_choices).

(** [set noisy_qubits] (lines 240-245), for a value its argument validator
    let through. *)
Definition noisy_qubits (value : string) (s : settings) : settings :=
  if String.eqb value "on"
  then set_setting "BACKEND" "noisy_qubits" "True" s
  else set_setting "BACKEND" "noisy_qubits" "False" s.

(** *** The [reset] command *)

(** A folder as the prefix of the paths of its entries. *)
Definition folder_prefix (folder : string) : string :=
  match Py.last_char folder with
  | None => EmptyString
  | Some "/"%char => folder
  | Some _ => folder +:+ "/"
  end.

(** The name under which the file at [path] is an entry of [folder]: what
    follows the folder in the path, when that is one path component. *)
Definition entry_of (folder path : string) : option string :=
  match Py.strip_prefix (folder_prefix folder) path with
  | Some entry =>
      if String.eqb entry EmptyString || negb (Nat.eqb (Py.count "/" entry) 0)
      then None else Some entry
  | None => None
  end.

(** [os.listdir] on the pid folder, which exists and holds the pid records
    and nothing else. *)
Definition listdir (folder : string) : cmd (list string) :=
  λ w, (omap (entry_of folder) (elements (dom (pid_records w))), w).

(** [os.remove] on a pid file. *)
Definition os_remove (path : string) : cmd unit :=
  λ w, (tt, World (delete path (pid_records w)) (effects w)).

(** Modelled from the spec: [RunDaemon.stop] of the [daemons] package is
    not in src/.  As [daemon_stop], except that the package may leave the
    pid file behind (a stale record); [cleans] says for which daemons it
    removes it. *)
Definition daemon_stop_with (cleans : SimulaQronDaemon → bool)
    (d : SimulaQronDaemon) : cmd unit :=
  λ w, (tt, World (if cleans d then delete (pidfile d) (pid_records w)
                   else pid_records w)
              (effects w ++ [DaemonStop d])).

(** A [for] loop over a list. *)
Fixpoint for_each {A : Type} (l : list A) (body : A → cmd unit) : cmd unit :=
  match l with
  | [] => ret tt
  | x :: rest => body x ;;; for_each rest body
  end.

Section Reset.

Variable module_dir : string.
Variable cleans : SimulaQronDaemon → bool.

(** The body of the loop of [reset] (lines 127-132). *)
Definition reset_entry (entry : string) : cmd unit :=
  if Py.endswith entry ".pid" then
    let pidfile := Py.path_join (PID_FOLDER module_dir) entry in
    let d := Daemon pidfile None None None None in
    daemon_stop_with cleans d ;;;
    do still <- path_exists pidfile;
    if still then os_remove pidfile else ret tt
  else ret tt.

(** [reset] (lines 124-132). *)
Definition reset : cmd outcome :=
  do entries <- listdir (PID_FOLDER module_dir);
  for_each entries reset_entry ;;;
  ret Return.

End Reset.

(** *** The other [set] commands *)

(** [set backend] (lines 154-156). *)
Definition backend (value : string) (s : settings) : settings :=
  set_setting "BACKEND" "backend" value s.

(** [set max_qubits] (lines 161-163); [str] of an [int] is its decimal
    numeral. *)
Definition max_qubits (value : Z) (s : settings) : settings :=
  set_setting "BACKEND" "maxqubits_per_node" (pretty value) s.

(** [set max_registers] (lines 168-170). *)
Definition max_registers (value : Z) (s : settings) : settings :=
  set_setting "BACKEND" "maxregs_per_node" (pretty value) s.

(** [set log_level] (lines 197-200). *)
Definition log_level (value : string) (s : settings) : settings :=
  let s := set_setting "BACKEND" "loglevel" value s in
  set_setting "FRONTEND" "loglevel" value s.

(** [set topology_file] (lines 205-207). *)
Definition topology_file (value : string) (s : settings) : settings :=
  set_setting "BACKEND" "topology_file" value s.

(** [set app_file] (lines 212-214). *)
Definition app_file (value : string) (s : settings) : settings :=
  set_setting "BACKEND" "app_file" value s.

(** [set cqc_file] (lines 219-221). *)
Definition cqc_file (value : string) (s : settings) : settings :=
  set_setting "BACKEND" "cqc_file" value s.

(** [set vnode_file] (lines 226-228). *)
Definition vnode_file (value : string) (s : settings) : settings :=
  set_setting "BACKEND" "vnode_file" value s.

(** [set nodes_file] (lines 233-235). *)
Definition nodes_file (value : string) (s : settings) : settings :=
  set_setting "BACKEND" "nodes_file" value s.

Section SetGroup.

Variable float : Type.
Variable str : float → string.

(** [set t1] (lines 250-252). *)
Definition t1 (value : float) (s : settings) : settings :=
  set_setting "BACKEND" "t1" (str value) s.

(** One invocation of a command of the [set] group with its converted
    argument: every command of the group but [default], which takes no
    argument and hands over to [default_settings]. *)
Inductive set_command :=
  | SetBackend (value : string)
  | SetMaxQubits (value : Z)
  | SetMaxRegisters (value : Z)
  | SetConnRetryTime (value : float)
  | SetRecvTimeout (value : float)
  | SetRecvRetryTime (value : float)
  | SetLogLevel (value : string)
  | SetTopologyFile (value : string)
  | SetAppFile (value : string)
  | SetCqcFile (value : string)
  | SetVnodeFile (value : string)
  | SetNodesFile (value : string)
  | SetNoisyQubits (value : string)
  | SetT1 (value : float).

(** The [set] group hands the invocation to its command. *)
Definition run_set (c : set_command) : settings → settings :=
  match c with
  | SetBackend v => backend v
  | SetMaxQubits v => max_qubits v
  | SetMaxRegisters v => max_registers v
  | SetConnRetryTime v => conn_retry_time float str v
  | SetRecvTimeout v => recv_timeout float str v
  | SetRecvRetryTime v => recv_retry_time float str v
  | SetLogLevel v => log_level v
  | SetTopologyFile v => topology_file v
  | SetAppFile v => app_file v
  | SetCqcFile v => cqc_file v
  | SetVnodeFile v => vnode_file v
  | SetNodesFile v => nodes_file v
  | SetNoisyQubits v => noisy_qubits v
  | SetT1 v => t1 v
  end.

(** The settings an invocation writes: section and key. *)
Definition written (c : set_command) : list (string * string) :=
  match c with
  | SetBackend _ => [("BACKEND", "backend")]
  | SetMaxQubits _ => [("BACKEND", "maxqubits_per_node")]
  | SetMaxRegisters _ => [("BACKEND", "maxregs_per_node")]
  | SetConnRetryTime _ => [("BACKEND", "waittime")]
  | SetRecvTimeout _ => [("BACKEND", "recvtimeout"); ("BACKEND", "recveprtimeout")]
  | SetRecvRetryTime _ => [("BACKEND", "waittimerecv")]
  | SetLogLevel _ => [("BACKEND", "loglevel"); ("FRONTEND", "loglevel")]
  | SetTopologyFile _ => [("BACKEND", "topology_file")]
  | SetAppFile _ => [("BACKEND", "app_file")]
  | SetCqcFile _ => [("BACKEND", "cqc_file")]
  | SetVnodeFile _ => [("BACKEND", "vnode_file")]
  | SetNodesFile _ => [("BACKEND", "nodes_file")]
  | SetNoisyQubits _ => [("BACKEND", "noisy_qubits")]
  | SetT1 _ => [("BACKEND", "t1")]
  end.

(** The string an invocation stores under each setting it writes. *)
Definition stored (c : set_command) : string :=
  match c with
  | SetBackend v | SetLogLevel v | SetTopologyFile v | SetAppFile v
  | SetCqcFile v | SetVnodeFile v | SetNodesFile v => v
  | SetMaxQubits n | SetMaxRegisters n => pretty n
  | SetConnRetryTime x | SetRecvTimeout x | SetRecvRetryTime x | SetT1 x => str x
  | SetNoisyQubits v => if String.eqb v "on" then "True" else "False"
  end.

(** The function an invocation is handed to, by its name in the file. *)
Definition command_of (c : set_command) : string :=
  match c with
  | SetBackend _ => "backend"
  | SetMaxQubits _ => "max_qubits"
  | SetMaxRegisters _ => "max_registers"
  | SetConnRetryTime _ => "conn_retry_time"
  | SetRecvTimeout _ => "recv_timeout"
  | SetRecvRetryTime _ => "recv_retry_time"
  | SetLogLevel _ => "log_level"
  | SetTopologyFile _ => "topology_file"
  | SetAppFile _ => "app_file"
  | SetCqcFile _ => "cqc_file"
  | SetVnodeFile _ => "vnode_file"
  | SetNodesFile _ => "nodes_file"
  | SetNoisyQubits _ => "noisy_qubits"
  | SetT1 _ => "t1"
  end.

End SetGroup.

(** *** The [nodes] commands *)

(** The call of [manage_nodes.add_node] (lines 394-395). *)
Record add_node_call := AddNode {
  an_name : string;
  an_hostname : option string;
  an_app_port : option Z;
  an_cqc_port : option Z;
  an_vnode_port : option Z;
  an_neighbors : option (list string);
}.

(** [nodes add] (lines 383-395). *)
Definition nodes_add (name : string) (hostname : option string)
    (app_port cqc_port vnode_port : option Z) (neighbors : option string)
    : add_node_call :=
  let neighbors :=
    match neighbors with
    | Some given => Some (Py.strip <$> Py.split "," given)
    | None => None
    end in
  AddNode name hostname app_port cqc_port vnode_port neighbors.

(** [nodes get] (lines 422-425), given the list [manage_nodes.get_nodes]
    returned: the line it prints, or [None] if [format] raises. *)
Definition nodes_get (nodes : list string) : option string :=
  Py.format (Py.drop_last (Py.repeat_str "{} " (length nodes))) nodes.

End SimulaQron.

(** ** [src/examples/nativeMode/template/nodeTest.py] *)

Module NodeTest.

(** *** Registries and handles *)

(** A live channel to an endpoint: to the virtual node, to its quantum
    register, or to the root object of a classical peer. *)
Inductive channel :=
  | VirtualNode
  | Register
  | ClassicalPeer.

Record handle := Handle {
  h_channel : channel;
  h_hostname : string;
  h_port : N;
}.

(** One entry of a registry: the endpoint of a node and, once a connection
    to it is open, the handle of its root object. *)
Record host := Host {
  name : string;
  hostname : string;
  port : N;
  root : option handle;
}.

(** A parsed registry file ([socketsConfig]): node name to entry. *)
Record socketsConfig := SocketsConfig {
  hostDict : gmap string host;
}.

(** *** [localNode] (lines 91-117) *)

Record localNode := LocalNode {
  node : host;
  classicalNet : socketsConfig;
  virtRoot : option handle;
  qReg : option handle;
}.

(** [__init__] (lines 92-98). *)
Definition localNode_init (node : host) (classicalNet : socketsConfig) : localNode :=
  {| node := node; classicalNet := classicalNet; virtRoot := None; qReg := None |}.

(** [set_virtual_node] (lines 100-101). *)
Definition set_virtual_node (self : localNode) (v : handle) : localNode :=
  {| node := node self; classicalNet := classicalNet self;
     virtRoot := Some v; qReg := qReg self |}.

(** [set_virtual_reg] (lines 103-104). *)
Definition set_virtual_reg (self : localNode) (r : handle) : localNode :=
  {| node := node self; classicalNet := classicalNet self;
     virtRoot := virtRoot self; qReg := Some r |}.

(** [remote_test] (lines 106-107). *)
Definition remote_test (self : localNode) : string := "Tested!".

(** *** Events of one node's process *)

Inductive event :=
  | LogDebug (msg : string)
  | ReactorStop
  | Listening (port : N)
  | RetryWait (endpoint : string) (interval : N)
  | Connected (endpoint : string) (h : handle)
  | Failure (e : error)
  | Invoke (qReg virtRoot : handle) (myName : string) (classicalNet : socketsConfig).

(** The application continuation: what it does once it is called. *)
Definition continuation : Type := handle → handle → string → socketsConfig → list event.

(** [runClientNode] (lines 63-80). *)
Definition runClientNode : continuation :=
  λ qReg virtRoot myName classicalNet,
    [LogDebug ("LOCAL " +:+ myName +:+ ": Runing client side program."); ReactorStop].

(** *** The bootstrap: [setup_local] *)

(** How the network answers: whether the attempt number [k] (from 0) to
    open a channel to a host and port succeeds. *)
Definition network : Type := string → N → nat → bool.

(** The retry policy of a connection attempt (specification, section 4.1). *)
Record policy := Policy {
  retryInterval : N;
  timeout : option N;
}.

Inductive attempt_result :=
  | Established (retries : nat)
  | Expired (elapsed : N).

(** Modelled from the spec: the connection attempt of [setup_local] is not
    in src/.  Section 4.1: repeatedly attempt to open a channel until it
    succeeds or until the timeout (if set) elapses; a failed attempt
    suspends for the retry interval before the next one.  [k] failed
    attempts took [elapsed]; [None] when the attempt is still retrying
    after [fuel] tries. *)
Fixpoint ConnectionAttempt (net : network) (p : policy) (target : host)
    (fuel k : nat) (elapsed : N) : option attempt_result :=
  match fuel with
  | O => None
  | S fuel' =>
      if net (hostname target) (port target) k then Some (Established k)
      else
        let elapsed' := (elapsed + retryInterval p)%N in
        match timeout p with
        | Some t =>
            if (t <=? elapsed')%N then Some (Expired elapsed')
            else ConnectionAttempt net p target fuel' (S k) elapsed'
        | None => ConnectionAttempt net p target fuel' (S k) elapsed'
        end
  end.

(** The states of the coordinator (section 4.2). *)
Inductive phase :=
  | Idle
  | ConnectingBackend
  | ConnectingPeers
  | ServerCheck
  | Ready
  | Running
  | Failed.

(** The coordinator's bootstrap state: its phase, the backend handles, the
    classical registry with the peer handles filled in, the server object
    and whether it listens, and the events so far. *)
Record coordinator := Coordinator {
  co_phase : phase;
  co_qReg : option handle;
  co_virtRoot : option handle;
  co_classicalNet : socketsConfig;
  co_server : option localNode;
  co_listening : bool;
  co_trace : list event;
}.

Definition emit (evs : list event) (c : coordinator) : coordinator :=
  Coordinator (co_phase c) (co_qReg c) (co_virtRoot c) (co_classicalNet c)
    (co_server c) (co_listening c) (co_trace c ++ evs).

Definition goto (ph : phase) (c : coordinator) : coordinator :=
  Coordinator ph (co_qReg c) (co_virtRoot c) (co_classicalNet c)
    (co_server c) (co_listening c) (co_trace c).

Definition fail (e : error) (c : coordinator) : coordinator :=
  goto Failed (emit [Failure e] c).

(** The events of an attempt that succeeded after [k] retries. *)
Definition connected_events (p : policy) (target : host) (h : handle) (k : nat) : list event :=
  replicate k (RetryWait (name target) (retryInterval p)) ++ [Connected (name target) h].

(** The events of an attempt that gave up after [elapsed]. *)
Definition expired_events (target : host) (elapsed : N) : list event :=
  [Failure (ConnectionTimeout (name target) elapsed)].

Definition handle_to (ch : channel) (target : host) : handle :=
  Handle ch (hostname target) (port target).

(** Store the handle of a connected peer in its registry entry. *)
Definition set_root (peer : string) (h : handle) (cn : socketsConfig) : socketsConfig :=
  SocketsConfig (alter (λ e, Host (name e) (hostname e) (port e) (Some h)) peer (hostDict cn)).

(** One attempt per neighbour, each with a clock of its own: the peers
    are tried independently of each other.  [None] while one of them is
    still retrying; otherwise the coordinator after all of them, failed as
    soon as one of them has no entry or gave up. *)
Fixpoint connect_peers (net : network) (p : policy) (fuel : nat)
    (neighbours : list string) (c : coordinator) : option coordinator :=
  match neighbours with
  | [] => Some c
  | nb :: rest =>
      match hostDict (co_classicalNet c) !! nb with
      | None => Some (fail (RegistryError nb) c)
      | Some target =>
          match ConnectionAttempt net p target fuel 0 0 with
          | None => None
          | Some (Expired elapsed) =>
              Some (goto Failed (emit (expired_events target elapsed) c))
          | Some (Established k) =>
              let h := handle_to ClassicalPeer target in
              let c := emit (connected_events p target h k) c in
              let c := Coordinator (co_phase c) (co_qReg c) (co_virtRoot c)
                         (set_root nb h (co_classicalNet c))
                         (co_server c) (co_listening c) (co_trace c) in
              connect_peers net p fuel rest c
          end
      end
  end.

(** The attempt to [target] succeeds within its timeout, at try number
    [k]: the network answers try [k] and none before it, and the [k]
    retry waits before it end before the timeout, if one is set. *)
Definition succeeds (net : network) (p : policy) (target : host) (k : nat) : Prop :=
  net (hostname target) (port target) k = true
  ∧ (∀ j, j < k → net (hostname target) (port target) j = false)
  ∧ match timeout p with
    | Some t => k = 0 ∨ (N.of_nat k * retryInterval p < t)%N
    | None => True
    end.

Definition connects (net : network) (p : policy) (target : host) : Prop :=
  ∃ k, succeeds net p target k.

(** Calls of the continuation among the events. *)
Definition is_invoke (ev : event) : bool :=
  match ev with
  | Invoke _ _ _ _ => true
  | _ => false
  end.

Definition invocations (trace : list event) : nat :=
  length (filter (λ ev, is_invoke ev = true) trace).

(** The default topology: every other node of the classical registry. *)
Definition neighbours_of (myName : string) (classicalNet : socketsConfig) : list string :=
  filter (λ n, n ≠ myName) (elements (dom (hostDict classicalNet))).

(** The coordinator of a cold process: [Idle], no handle, no event. *)
Definition initial (classicalNet : socketsConfig) (lNode : option localNode) : coordinator :=
  Coordinator Idle None None classicalNet lNode false [].

Section Coordinator.

Variable net : network.
Variable p : policy.
Variable myName : string.
Variable virtualNet : socketsConfig.
Variable func : continuation.

(** Modelled from the spec: [setup_local] is not in src/.  One transition
    of the coordinator of section 4.2.  [Idle]: the classical server, if
    the node has one, starts listening at once.  [ConnectingBackend]: one
    attempt to the node's own entry of the virtual registry, giving the
    two backend handles, which are bound late into the server object
    (section 4.3).  [ConnectingPeers]: one attempt per neighbour.
    [ServerCheck]: a node with a server is ready only when it listens.
    [Ready]: the continuation is called, in this very transition.
    [Running] and [Failed] are terminal.  [None] while an attempt is
    still retrying after [fuel] tries. *)
Definition step (fuel : nat) (c : coordinator) : option coordinator :=
  match co_phase c with
  | Idle =>
      match co_server c with
      | Some srv =>
          Some (Coordinator ConnectingBackend (co_qReg c) (co_virtRoot c)
                  (co_classicalNet c) (co_server c) true
                  (co_trace c ++ [Listening (port (node srv))]))
      | None => Some (goto ConnectingBackend c)
      end
  | ConnectingBackend =>
      match hostDict virtualNet !! myName with
      | None => Some (fail (RegistryError myName) c)
      | Some target =>
          match ConnectionAttempt net p target fuel 0 0 with
          | None => None
          | Some (Expired elapsed) =>
              Some (goto Failed (emit (expired_events target elapsed) c))
          | Some (Established k) =>
              let v := handle_to VirtualNode target in
              let r := handle_to Register target in
              let srv := (λ s, set_virtual_reg (set_virtual_node s v) r) <$> co_server c in
              Some (Coordinator ConnectingPeers (Some r) (Some v)
                      (co_classicalNet c) srv (co_listening c)
                      (co_trace c ++ connected_events p target v k))
          end
      end
  | ConnectingPeers =>
      match connect_peers net p fuel (neighbours_of myName (co_classicalNet c)) c with
      | None => None
      | Some c' =>
          match co_phase c' with
          | Failed => Some c'
          | _ => Some (goto ServerCheck c')
          end
      end
  | ServerCheck =>
      match co_server c with
      | Some srv =>
          if co_listening c then Some (goto Ready c)
          else Some (fail (ServerBindError (port (node srv))) c)
      | None => Some (goto Ready c)
      end
  | Ready =>
      match co_qReg c, co_virtRoot c with
      | Some r, Some v =>
          let cn := co_classicalNet c in
          Some (goto Running (emit (Invoke r v myName cn :: func r v myName cn) c))
      | _, _ => Some (goto Failed c)
      end
  | Running => Some c
  | Failed => Some c
  end.

(** At most [n] transitions. *)
Fixpoint drive (n fuel : nat) (c : coordinator) : option coordinator :=
  match n with
  | O => Some c
  | S n' =>
      match step fuel c with
      | None => None
      | Some c' => drive n' fuel c'
      end
  end.

(** Modelled from the spec: [setup_local] is not in src/.  The coordinator
    starts [Idle] with no handle and runs its five transitions. *)
Definition setup_local (classicalNet : socketsConfig) (lNode : option localNode)
    (fuel : nat) : option coordinator :=
  drive 5 fuel (initial classicalNet lNode).

End Coordinator.

(** *** [main] (lines 128-153) *)

(** Lines 145-148: the server object, if the node is listed as a server. *)
Definition local_server (myName : string) (classicalNet : socketsConfig) : option localNode :=
  match hostDict classicalNet !! myName with
  | Some entry => Some (localNode_init entry classicalNet)
  | None => None
  end.

(** The arguments of the call of [setup_local] on line 153. *)
Record setup_call := SetupCall {
  arg_myName : string;
  arg_virtualNet : socketsConfig;
  arg_classicalNet : socketsConfig;
  arg_lNode : option localNode;
  arg_func : continuation;
}.

(** Lines 139-153 for a node called [myName], given the two parsed
    registries: the call of [setup_local] it makes. *)
Definition main_call (myName : string) (virtualNet classicalNet : socketsConfig) : setup_call :=
  let lNode := local_server myName classicalNet in
  SetupCall myName virtualNet classicalNet lNode runClientNode.

(** Line 131: the name the template ships with. *)
Definition myName : string := "YOURNAME".

(** [main], with the network's behaviour and the retry policy of the
    settings as inputs. *)
Definition main_as (name : string) (net : network) (p : policy)
    (virtualNet classicalNet : socketsConfig) (fuel : nat) : option coordinator :=
  let call := main_call name virtualNet classicalNet in
  setup_local net p (arg_myName call) (arg_virtualNet call) (arg_func call)
    (arg_classicalNet call) (arg_lNode call) fuel.

Definition main := main_as myName.

(** *** A two-node network

    Alice and Bob, both listed as classical servers; every endpoint answers
    from the third try on, the retry interval is 100 and the timeout 1000. *)

Definition slow_start : network := λ _ _ k, Nat.leb 2 k.

Definition patient : policy := Policy 100 (Some 1000%N).

Definition two_virtual : socketsConfig :=
  SocketsConfig (<["Alice" := Host "Alice" "localhost" 8801 None]>
                 (<["Bob" := Host "Bob" "localhost" 8802 None]> ∅)).

Definition two_classical : socketsConfig :=
  SocketsConfig (<["Alice" := Host "Alice" "localhost" 8811 None]>
                 (<["Bob" := Host "Bob" "localhost" 8812 None]> ∅)).

(** *** Predicates on the bootstrap *)

(** Two registries with the same endpoints under the same names. *)
Definition same_endpoints (cn0 cn : socketsConfig) : Prop :=
  ∀ n, match hostDict cn0 !! n, hostDict cn !! n with
       | Some e, Some e' =>
           name e = name e' ∧ hostname e = hostname e' ∧ port e = port e'
       | None, None => True
       | _, _ => False
       end.

(** The entry of a connected peer: its endpoint with the handle stored. *)
Definition connected_entry (e : host) : host :=
  Host (name e) (hostname e) (port e) (Some (handle_to ClassicalPeer e)).

(** The backend handles bound late into the server object. *)
Definition late_bound (backend : host) (srv : localNode) : localNode :=
  set_virtual_reg (set_virtual_node srv (handle_to VirtualNode backend))
    (handle_to Register backend).

(** What the events before the call of the continuation show, and what
    the registry handed to it holds: the backend connected, and every
    other node of the classical registry connected with its handle stored
    in its entry. *)
Definition all_links_live (myName : string) (classicalNet : socketsConfig)
    (backend : host) (pre : list event) (cn : socketsConfig) : Prop :=
  Connected (name backend) (handle_to VirtualNode backend) ∈ pre
  ∧ ∀ nb e, nb ≠ myName → hostDict classicalNet !! nb = Some e →
      Connected (name e) (handle_to ClassicalPeer e) ∈ pre
      ∧ hostDict cn !! nb = Some (connected_entry e).

(** The continuation has been called once if the coordinator is [Running],
    and not at all otherwise. *)
Definition called_once_iff_running (c : coordinator) : Prop :=
  invocations (co_trace c) = match co_phase c with Running => 1 | _ => 0 end.

End NodeTest.

(** * Properties of [SimulaQron.py] *)

Section StartStop.

Import SimulaQron.

Variable module_dir : string.

(** ** Helper lemmas on the state monad of the commands *)

Lemma path_exists_true (path : string) (w : world) :
  is_Some (pid_records w !! path) → path_exists path w = (true, w).
Proof.
  intros Hsome. unfold path_exists.
  by rewrite bool_decide_eq_true_2.
Qed.

Lemma path_exists_false (path : string) (w : world) :
  pid_records w !! path = None → path_exists path w = (false, w).
Proof.
  intros Hnone. unfold path_exists.
  rewrite bool_decide_eq_false_2; [done|].
  rewrite Hnone. by intros [? ?].
Qed.

Example pidfile_of_default :
  pidfile_of "/opt/simulaqron" "default"
  = "/opt/simulaqron/.simulaqron_pids/simulaqron_network_default.pid".
Proof. reflexivity. Qed.

Example path_join_absolute : Py.path_join "/opt" "/etc/x.pid" = "/etc/x.pid".
Proof. reflexivity. Qed.

Example path_join_trailing_slash : Py.path_join "/opt/" "x.pid" = "/opt/x.pid".
Proof. reflexivity. Qed.

(** ** C2: starting under a name that is already running *)

(** C2, as stated, fails: with a network already running under the default
    name, [start] without a name does not raise [DuplicateInstanceError];
    it returns normally. *)
Lemma start_duplicate_does_not_raise :
  is_Some (pid_records (default_running "/opt/simulaqron")
             !! pidfile_of "/opt/simulaqron" (name_or_default None))
  ∧ fst (start "/opt/simulaqron" None None None None (default_running "/opt/simulaqron"))
    = Return
  ∧ fst (start "/opt/simulaqron" None None None None (default_running "/opt/simulaqron"))
    ≠ Raise (DuplicateInstanceError "default").
Proof.
  split; [|split].
  - unfold default_running. cbn [pid_records name_or_default].
    rewrite lookup_singleton_eq. by eexists.
  - vm_compute. reflexivity.
  - vm_compute. discriminate.
Qed.

(** C2, amended: when the pid record of the named network exists, [start]
    logs the warning that the network is already running and returns
    normally; it starts no daemon and leaves every pid record as it was. *)
Theorem start_duplicate_warns_and_returns
    (name : option string) (nrnodes : option Z) (nodes topology : option string)
    (w : world) :
  is_Some (pid_records w !! pidfile_of module_dir (name_or_default name)) →
  start module_dir name nrnodes nodes topology w
  = (Return,
     World (pid_records w)
       (effects w ++
        [SetupCqcFiles;
         LogWarning ("Network with name " +:+ name_or_default name
                     +:+ " is already running")])).
Proof.
  intros Hrunning.
  unfold start, bind, setup_cqc_files, logging_warning, perform, ret.
  rewrite path_exists_true by exact Hrunning.
  cbn [pid_records effects]. by rewrite <- (assoc_L (++)).
Qed.

(** ** C8: stopping a network that is not running *)

(** C8: when the pid record of the named network does not exist, [stop]
    logs the warning that the network is not running and returns; it stops
    no daemon and leaves every pid record as it was. *)
Theorem stop_absent_warns_and_returns (name : option string) (w : world) :
  pid_records w !! pidfile_of module_dir (name_or_default name) = None →
  stop module_dir name w
  = (Return,
     World (pid_records w)
       (effects w ++
        [LogWarning ("Network with name " +:+ name_or_default name
                     +:+ " is not running")])).
Proof.
  intros Habsent.
  unfold stop, bind, logging_warning, perform, ret.
  by rewrite path_exists_false by exact Habsent.
Qed.

(** ** C10: the default instance identifier *)

Lemma start_fresh
    (name : option string) (nrnodes : option Z) (nodes topology : option string)
    (w : world) :
  pid_records w !! pidfile_of module_dir (name_or_default name) = None →
  start module_dir name nrnodes nodes topology w
  = let d := Daemon (pidfile_of module_dir (name_or_default name))
               (Some (name_or_default name)) nrnodes nodes topology in
    (Return,
     World (<[pidfile d := d]> (pid_records w))
       (effects w ++ [SetupCqcFiles; DaemonStart d])).
Proof.
  intros Habsent.
  unfold start, bind, setup_cqc_files, daemon_start, perform, ret.
  rewrite path_exists_false by exact Habsent.
  cbn [pid_records effects pidfile]. by rewrite <- (assoc_L (++)).
Qed.

Lemma stop_running (name : option string) (w : world) :
  is_Some (pid_records w !! pidfile_of module_dir (name_or_default name)) →
  stop module_dir name w
  = let d := Daemon (pidfile_of module_dir (name_or_default name))
               None None None None in
    (Return,
     World (delete (pidfile d) (pid_records w)) (effects w ++ [DaemonStop d])).
Proof.
  intros Hrunning.
  unfold stop, bind, daemon_stop, perform, ret.
  by rewrite path_exists_true by exact Hrunning.
Qed.

(** C10: [start] and [stop] without a name both stand for the name
    "default" and both work on the pid file
    [simulaqron_network_default.pid] of the pid folder: after an unnamed
    [start] the instance is recorded under that file, and an unnamed [stop]
    then stops the daemon of that very file and removes that record. *)
Theorem unnamed_stop_targets_unnamed_start
    (nrnodes : option Z) (nodes topology : option string) (w : world) :
  pid_records w !! default_pidfile module_dir = None →
  start module_dir None nrnodes nodes topology
  = start module_dir (Some "default") nrnodes nodes topology
  ∧ stop module_dir None = stop module_dir (Some "default")
  ∧ start module_dir None nrnodes nodes topology w
    = (Return,
       World (<[default_pidfile module_dir :=
                  Daemon (default_pidfile module_dir) (Some "default")
                    nrnodes nodes topology]> (pid_records w))
         (effects w ++
          [SetupCqcFiles;
           DaemonStart (Daemon (default_pidfile module_dir) (Some "default")
                          nrnodes nodes topology)]))
  ∧ stop module_dir None (snd (start module_dir None nrnodes nodes topology w))
    = (Return,
       World (pid_records w)
         (effects w ++
          [SetupCqcFiles;
           DaemonStart (Daemon (default_pidfile module_dir) (Some "default")
                          nrnodes nodes topology);
           DaemonStop (Daemon (default_pidfile module_dir) None None None None)])).
Proof.
  intros Habsent.
  assert (Hpath : pidfile_of module_dir (name_or_default None)
                  = default_pidfile module_dir) by reflexivity.
  assert (Hstart := start_fresh None nrnodes nodes topology w).
  rewrite Hpath in Hstart. specialize (Hstart Habsent).
  cbn [name_or_default pidfile] in Hstart.
  repeat split; try exact Hstart.
  rewrite Hstart. cbn [snd].
  rewrite stop_running; rewrite Hpath; cbn [pid_records effects pidfile].
  - rewrite delete_insert_id by exact Habsent.
    by rewrite <- (assoc_L (++)).
  - rewrite lookup_insert_eq. by eexists.
Qed.

End StartStop.

(** Witness of C2's amended theorem: [start] without a name while the
    default network runs. *)
Lemma start_duplicate_warns_and_returns_witness :
  is_Some (SimulaQron.pid_records (SimulaQron.default_running "/opt/simulaqron")
             !! SimulaQron.pidfile_of "/opt/simulaqron" (SimulaQron.name_or_default None))
  ∧ SimulaQron.start "/opt/simulaqron" None (Some 2%Z) None None
      (SimulaQron.default_running "/opt/simulaqron")
    = (Return,
       SimulaQron.World
         (SimulaQron.pid_records (SimulaQron.default_running "/opt/simulaqron"))
         [SimulaQron.SetupCqcFiles;
          SimulaQron.LogWarning "Network with name default is already running"]).
Proof.
  assert (Hrunning :
    is_Some (SimulaQron.pid_records (SimulaQron.default_running "/opt/simulaqron")
               !! SimulaQron.pidfile_of "/opt/simulaqron" (SimulaQron.name_or_default None))).
  { unfold SimulaQron.default_running.
    cbn [SimulaQron.pid_records SimulaQron.name_or_default].
    rewrite lookup_singleton_eq. by eexists. }
  split; [exact Hrunning|].
  exact (start_duplicate_warns_and_returns "/opt/simulaqron" None (Some 2%Z) None None
           (SimulaQron.default_running "/opt/simulaqron") Hrunning).
Defined.

(** Witness of C8: [stop] of the network "lab" while only the default
    network runs. *)
Lemma stop_absent_warns_and_returns_witness :
  SimulaQron.pid_records (SimulaQron.default_running "/opt/simulaqron")
    !! SimulaQron.pidfile_of "/opt/simulaqron" (SimulaQron.name_or_default (Some "lab"))
  = None
  ∧ SimulaQron.stop "/opt/simulaqron" (Some "lab")
      (SimulaQron.default_running "/opt/simulaqron")
    = (Return,
       SimulaQron.World
         (SimulaQron.pid_records (SimulaQron.default_running "/opt/simulaqron"))
         [SimulaQron.LogWarning "Network with name lab is not running"]).
Proof.
  assert (Habsent :
    SimulaQron.pid_records (SimulaQron.default_running "/opt/simulaqron")
      !! SimulaQron.pidfile_of "/opt/simulaqron" (SimulaQron.name_or_default (Some "lab"))
    = None).
  { vm_compute. reflexivity. }
  split; [exact Habsent|].
  exact (stop_absent_warns_and_returns "/opt/simulaqron" (Some "lab")
           (SimulaQron.default_running "/opt/simulaqron") Habsent).
Defined.

(** Witness of C10: an unnamed [start] of two nodes in an empty pid folder,
    followed by an unnamed [stop]. *)
Lemma unnamed_stop_targets_unnamed_start_witness :
  SimulaQron.pid_records (SimulaQron.World ∅ [])
    !! SimulaQron.default_pidfile "/opt/simulaqron" = None
  ∧ SimulaQron.stop "/opt/simulaqron" None
      (snd (SimulaQron.start "/opt/simulaqron" None (Some 2%Z) None None
              (SimulaQron.World ∅ [])))
    = (Return,
       SimulaQron.World ∅
         [SimulaQron.SetupCqcFiles;
          SimulaQron.DaemonStart
            (SimulaQron.Daemon (SimulaQron.default_pidfile "/opt/simulaqron")
               (Some "default") (Some 2%Z) None None);
          SimulaQron.DaemonStop
            (SimulaQron.Daemon (SimulaQron.default_pidfile "/opt/simulaqron")
               None None None None)]).
Proof.
  assert (Habsent :
    SimulaQron.pid_records (SimulaQron.World ∅ [])
      !! SimulaQron.default_pidfile "/opt/simulaqron" = None)
    by apply lookup_empty.
  split; [exact Habsent|].
  exact (proj2 (proj2 (proj2
    (unnamed_stop_targets_unnamed_start "/opt/simulaqron" (Some 2%Z) None None
       (SimulaQron.World ∅ []) Habsent)))).
Defined.

(** ** C3: the node names handed to [Network] *)

Section RunNodes.

Import SimulaQron.

Example split_names : Py.split "," "Alice,Bob" = ["Alice"; "Bob"].
Proof. reflexivity. Qed.

Example split_empty_field : Py.split "," "a,,b" = ["a"; ""; "b"].
Proof. reflexivity. Qed.

Example node_name_10 : node_name 10 = "Node10".
Proof. vm_compute. reflexivity. Qed.

Example run_nodes_padded :
  run_nodes (Daemon "p" (Some "default") (Some 4%Z) (Some "Alice,Bob") None)
  = NodesList ["Alice"; "Bob"; "Node0"; "Node1"].
Proof. vm_compute. reflexivity. Qed.

Example run_nodes_from_config :
  run_nodes (Daemon "p" (Some "default") None None None) = NodesNone.
Proof. reflexivity. Qed.

(** The separator never occurs in a field. *)
Lemma split_nonempty (sep : ascii) (s : string) : Py.split sep s ≠ [].
Proof.
  induction s as [|c s IH]; cbn [Py.split]; [done|].
  destruct (Ascii.eqb c sep); [done|].
  destruct (Py.split sep s); done.
Qed.

(** Distinct numbers give distinct padding names. *)
Lemma node_name_inj (i j : nat) : node_name i = node_name j → i = j.
Proof.
  unfold node_name. cbn [String.append]. intros Heq.
  injection Heq as Heq. exact (pretty_nat_inj i j Heq).
Qed.

Lemma padding_NoDup (d : SimulaQronDaemon) (listed : list string) :
  NoDup (padding d listed).
Proof.
  unfold padding. destruct (nrnodes d) as [n|]; [|constructor].
  destruct (_ && _); [|constructor].
  apply NoDup_fmap_2_strong; [|apply NoDup_seq].
  intros i j _ _. apply node_name_inj.
Qed.

(** Every padding name is [Node] followed by a number below the number
    of missing nodes. *)
Lemma padding_names (d : SimulaQronDaemon) (listed : list string) (x : string) :
  x ∈ padding d listed →
  ∃ (n : Z) (i : nat),
    nrnodes d = Some n ∧ x = node_name i
    ∧ (Z.of_nat i < n - Z.of_nat (length listed))%Z.
Proof.
  unfold padding. destruct (nrnodes d) as [n|]; [|by intros ?%elem_of_nil].
  destruct (_ && _); [|by intros ?%elem_of_nil].
  intros (i & -> & Hi)%list_elem_of_fmap.
  unfold Py.range in Hi. apply elem_of_seq in Hi.
  exists n, i. repeat split; lia.
Qed.

(** C3, as stated, fails: with the explicit list [Node0] and [nrnodes] 2
    the padding name [Node0] collides with the listed one. *)
Lemma run_nodes_duplicate :
  run_nodes (Daemon "p" (Some "default") (Some 2%Z) (Some "Node0") None)
  = NodesList ["Node0"; "Node0"]
  ∧ ¬ NoDup ["Node0"; "Node0"].
Proof.
  split; [vm_compute; reflexivity|].
  intros Hnodup. apply NoDup_cons in Hnodup as [Hnotin _].
  apply Hnotin. apply list_elem_of_here.
Qed.

(** C3, amended: when [run] builds a list of names, it is the explicitly
    listed names followed by the padding names; the padding names are
    pairwise distinct, and the whole list is pairwise distinct exactly
    when the listed names are pairwise distinct and none of them is a
    padding name. *)
Theorem run_nodes_distinct_iff (d : SimulaQronDaemon) (l : list string) :
  run_nodes d = NodesList l →
  l = explicit_nodes d ++ padding d (explicit_nodes d)
  ∧ NoDup (padding d (explicit_nodes d))
  ∧ (NoDup l ↔
     NoDup (explicit_nodes d)
     ∧ ∀ x : string, x ∈ explicit_nodes d → x ∉ padding d (explicit_nodes d)).
Proof.
  unfold run_nodes. intros Hrun.
  destruct (_ || _).
  - injection Hrun as <-.
    split; [reflexivity|]. split; [apply padding_NoDup|].
    rewrite NoDup_app. pose proof (padding_NoDup d (explicit_nodes d)). tauto.
  - destruct (nodes d); discriminate.
Qed.

End RunNodes.

(** Witness of C3's amended theorem: two listed names padded to four. *)
Lemma run_nodes_distinct_iff_witness :
  SimulaQron.run_nodes
    (SimulaQron.Daemon "p" (Some "default") (Some 4%Z) (Some "Alice,Bob") None)
  = SimulaQron.NodesList ["Alice"; "Bob"; "Node0"; "Node1"]
  ∧ NoDup (SimulaQron.padding
             (SimulaQron.Daemon "p" (Some "default") (Some 4%Z) (Some "Alice,Bob") None)
             (SimulaQron.explicit_nodes
                (SimulaQron.Daemon "p" (Some "default") (Some 4%Z) (Some "Alice,Bob") None))).
Proof.
  assert (Hrun :
    SimulaQron.run_nodes
      (SimulaQron.Daemon "p" (Some "default") (Some 4%Z) (Some "Alice,Bob") None)
    = SimulaQron.NodesList ["Alice"; "Bob"; "Node0"; "Node1"]).
  { vm_compute. reflexivity. }
  split; [exact Hrun|].
  exact (proj1 (proj2 (run_nodes_distinct_iff _ _ Hrun))).
Defined.

(** ** C4: the supervisor never returns from [run] *)

Section RunLoop.

Import SimulaQron.

(** A loop whose condition is constantly true is still looping after any
    number of iterations, and has run its body once per iteration. *)
Lemma py_while_true {St : Type} (body : St → St) (fuel : nat) (s : St) :
  py_while (λ _, true) body fuel s = (StillLooping, Nat.iter fuel body s).
Proof.
  revert s. induction fuel as [|fuel IH]; intros s; [reflexivity|].
  cbn [py_while]. rewrite IH. by rewrite Nat.iter_succ_r.
Qed.

Lemma iter_time_sleep (ms : N) (n : nat) (log : list run_effect) :
  Nat.iter n (time_sleep ms) log = log ++ replicate n (Sleep ms).
Proof.
  induction n as [|n IH].
  - cbn [Nat.iter nat_rect replicate]. by rewrite app_nil_r.
  - rewrite Nat.iter_succ, IH. unfold time_sleep.
    by rewrite <- (assoc_L (++)), replicate_S_end.
Qed.

(** C4: [run] starts the network once and then never returns: whatever
    the number of loop iterations observed, it is still in its loop, and
    each iteration so far was exactly one sleep of 0.1 seconds, so the loop
    never goes round without suspending. *)
Theorem run_never_returns (d : SimulaQronDaemon) (fuel : nat) :
  run d fuel
  = (StillLooping,
     NetworkStart (name d) (run_nodes d) (topology d) :: replicate fuel (Sleep 100)).
Proof.
  unfold run. rewrite py_while_true. by rewrite iter_time_sleep.
Qed.

End RunLoop.

(** ** C7: the retry and timeout settings are written apart *)

Section SettingsFrame.

Import SimulaQron.

Variable float : Type.
Variable str : float → string.

Lemma set_setting_lookup (section key value : string) (s : settings)
    (k : string * string) :
  set_setting section key value s !! k
  = if decide (k = (section, key)) then Some value else s !! k.
Proof.
  unfold set_setting. rewrite lookup_insert.
  destruct (decide ((section, key) = k)), (decide (k = (section, key)));
    congruence.
Qed.

(** C7: [conn_retry_time] writes the setting [waittime] and no other,
    [recv_retry_time] writes [waittimerecv] and no other, and
    [recv_timeout] writes [recvtimeout] and [recveprtimeout] and no other, in
    particular neither [waittime] nor [waittimerecv]. *)
Theorem retry_and_receive_settings_apart (v : float) (s : settings)
    (k : string * string) :
  conn_retry_time float str v s !! k
  = (if decide (k = ("BACKEND", "waittime")) then Some (str v) else s !! k)
  ∧ recv_retry_time float str v s !! k
    = (if decide (k = ("BACKEND", "waittimerecv")) then Some (str v) else s !! k)
  ∧ recv_timeout float str v s !! k
    = (if decide (k = ("BACKEND", "recvtimeout") ∨ k = ("BACKEND", "recveprtimeout"))
       then Some (str v) else s !! k)
  ∧ recv_timeout float str v s !! ("BACKEND", "waittime") = s !! ("BACKEND", "waittime")
  ∧ recv_timeout float str v s !! ("BACKEND", "waittimerecv")
    = s !! ("BACKEND", "waittimerecv").
Proof.
  unfold conn_retry_time, recv_retry_time, recv_timeout.
  rewrite !set_setting_lookup.
  repeat split; repeat case_decide; try reflexivity;
    exfalso; intuition congruence.
Qed.

(** The connection retry time and the receive settings can be set in
    either order. *)
Lemma conn_retry_time_recv_timeout_commute (v v' : float) (s : settings) :
  conn_retry_time float str v (recv_timeout float str v' s)
  = recv_timeout float str v' (conn_retry_time float str v s).
Proof.
  apply map_eq. intros k.
  unfold conn_retry_time, recv_timeout. rewrite !set_setting_lookup.
  repeat case_decide; try reflexivity; simplify_eq.
Qed.

End SettingsFrame.

(** ** The [noisy_qubits] setting and its argument validator *)

Section NoisyQubits.

Import SimulaQron.

(** [set noisy_qubits] stores 'True' exactly for the value "on". *)
Lemma noisy_qubits_stores (value : string) (s : settings) :
  noisy_qubits value s !! ("BACKEND", "noisy_qubits")
  = Some (if String.eqb value "on" then "True" else "False").
Proof.
  unfold noisy_qubits, set_setting.
  destruct (String.eqb value "on"); apply lookup_insert_eq.
Qed.

(** A validator that iterates over the string "on" lets through the two
    one-character strings only, and the command then stores 'False'. *)
Lemma accepted_by_iteration_stores_False (value : string) (s : settings) :
  accepted_by_iteration value = true →
  noisy_qubits value s !! ("BACKEND", "noisy_qubits") = Some "False".
Proof.
  unfold accepted_by_iteration. intros Hacc%bool_decide_eq_true.
  rewrite noisy_qubits_stores.
  cbn in Hacc. set_unfold in Hacc.
  destruct Hacc as [->| [->|[]]]; reflexivity.
Qed.

(** A validator that tests containment in the string "on" lets "on"
    through, and the command then stores 'True'. *)
Lemma accepted_by_containment_on :
  accepted_by_containment "on" = true
  ∧ noisy_qubits "on" ∅ !! ("BACKEND", "noisy_qubits") = Some "True".
Proof.
  split; [reflexivity|]. by rewrite noisy_qubits_stores.
Qed.

End NoisyQubits.

(** * Properties of [nodeTest.py] *)

Section LocalNode.

Import NodeTest.

(** ** C5: the server object exists exactly for a listed node *)

(** C5: [main] constructs a [localNode] exactly when the node's name is a
    key of the classical registry, from the entry of that name and the
    registry, and otherwise hands [None] to [setup_local] as the server. *)
Theorem main_server_iff_listed (myName : string) (virtualNet classicalNet : socketsConfig) :
  (is_Some (arg_lNode (main_call myName virtualNet classicalNet))
   ↔ myName ∈ dom (hostDict classicalNet))
  ∧ (myName ∉ dom (hostDict classicalNet)
     ↔ arg_lNode (main_call myName virtualNet classicalNet) = None)
  ∧ (∀ entry, hostDict classicalNet !! myName = Some entry ↔
       arg_lNode (main_call myName virtualNet classicalNet)
       = Some (localNode_init entry classicalNet)).
Proof.
  unfold main_call, local_server. cbn [arg_lNode].
  rewrite elem_of_dom.
  destruct (hostDict classicalNet !! myName) as [entry|] eqn:Hlookup.
  - split; [|split].
    + split; intros _; by eexists.
    + split; [intros Hnot; destruct Hnot; by eexists|discriminate].
    + intros entry'. split; intros Heq.
      * by injection Heq as <-.
      * unfold localNode_init in Heq. by injection Heq as <-.
  - split; [|split].
    + split; intros [? ?]; discriminate.
    + split; [reflexivity|]. intros _ [? ?]; discriminate.
    + intros entry'. split; discriminate.
Qed.

(** ** C6: the server object binds its backend handles late *)

(** C6: a new [localNode] has no backend handle; [set_virtual_node] sets
    [virtRoot] and [set_virtual_reg] sets [qReg], each leaving the other
    three fields as they were. *)
Theorem localNode_late_binding :
  (∀ (entry : host) (cn : socketsConfig),
     virtRoot (localNode_init entry cn) = None
     ∧ qReg (localNode_init entry cn) = None
     ∧ node (localNode_init entry cn) = entry
     ∧ classicalNet (localNode_init entry cn) = cn)
  ∧ (∀ (self : localNode) (v : handle),
       virtRoot (set_virtual_node self v) = Some v
       ∧ qReg (set_virtual_node self v) = qReg self
       ∧ node (set_virtual_node self v) = node self
       ∧ classicalNet (set_virtual_node self v) = classicalNet self)
  ∧ (∀ (self : localNode) (r : handle),
       qReg (set_virtual_reg self r) = Some r
       ∧ virtRoot (set_virtual_reg self r) = virtRoot self
       ∧ node (set_virtual_reg self r) = node self
       ∧ classicalNet (set_virtual_reg self r) = classicalNet self).
Proof.
  split; [|split].
  - intros entry cn. unfold localNode_init. by split_and!.
  - intros self v. unfold set_virtual_node. by split_and!.
  - intros self r. unfold set_virtual_reg. by split_and!.
Qed.

(** The two setters commute: the handles can be bound in either order. *)
Lemma set_virtual_commute (self : localNode) (v r : handle) :
  set_virtual_reg (set_virtual_node self v) r
  = set_virtual_node (set_virtual_reg self r) v.
Proof. destruct self. reflexivity. Qed.

End LocalNode.

(** ** C1: the continuation is called once, after all links are live *)

Section Bootstrap.

Import NodeTest.

Variable net : network.
Variable p : policy.

(** *** One connection attempt *)

(** After [j] failed tries of an attempt that succeeds at try [k], enough
    fuel reaches the success. *)
Lemma ConnectionAttempt_from (target : host) (k : nat) :
  succeeds net p target k →
  ∀ fuel j : nat, (j ≤ k)%nat → k - j < fuel →
    ConnectionAttempt net p target fuel j (N.of_nat j * retryInterval p)
    = Some (Established k).
Proof.
  intros (Hup & Hdown & Hwithin).
  induction fuel as [|fuel IH]; intros j Hle Hfuel; [lia|].
  cbn [ConnectionAttempt].
  destruct (decide (j = k)) as [->|Hne].
  - by rewrite Hup.
  - rewrite Hdown by lia.
    assert (Hnext : (N.of_nat j * retryInterval p + retryInterval p
                     = N.of_nat (S j) * retryInterval p)%N) by lia.
    rewrite Hnext.
    destruct (timeout p) as [t|].
    + destruct Hwithin as [->|Hlt]; [lia|].
      assert (Hin : (N.of_nat (S j) * retryInterval p
                     ≤ N.of_nat k * retryInterval p)%N)
        by (apply N.mul_le_mono_r; lia).
      rewrite (proj2 (N.leb_gt _ _)) by lia.
      apply IH; lia.
    + apply IH; lia.
Qed.

Lemma ConnectionAttempt_succeeds (target : host) (k fuel : nat) :
  succeeds net p target k → k < fuel →
  ConnectionAttempt net p target fuel 0 0 = Some (Established k).
Proof.
  intros Hsucc Hfuel.
  apply (ConnectionAttempt_from target k Hsucc fuel 0); lia.
Qed.

(** An attempt only looks at the host name and the port of its target. *)
Lemma ConnectionAttempt_endpoint (e e' : host) (fuel k : nat) (elapsed : N) :
  hostname e = hostname e' → port e = port e' →
  ConnectionAttempt net p e fuel k elapsed
  = ConnectionAttempt net p e' fuel k elapsed.
Proof.
  intros Hhost Hport. revert k elapsed.
  induction fuel as [|fuel IH]; intros k elapsed; [reflexivity|].
  cbn [ConnectionAttempt]. rewrite Hhost, Hport.
  destruct (net _ _ _); [reflexivity|].
  destruct (timeout p); [|apply IH].
  destruct (_ <=? _)%N; [reflexivity|apply IH].
Qed.

(** Finitely many attempts that each succeed at some try have a common
    bound on that try. *)
Lemma common_bound (P : string → nat → Prop) (l : list string) :
  (∀ x, x ∈ l → ∃ k, P x k) →
  ∃ bound, ∀ x, x ∈ l → ∃ k, P x k ∧ k < bound.
Proof.
  induction l as [|x l IH]; intros Hall.
  - exists 0. by intros x ?%elem_of_nil.
  - destruct IH as [bound Hbound].
    { intros y Hy. apply Hall. by apply list_elem_of_further. }
    destruct (Hall x) as [k Hk]; [apply list_elem_of_here|].
    exists (S k `max` bound). intros y [->|Hy]%elem_of_cons.
    + exists k. split; [done|lia].
    + destruct (Hbound y Hy) as (k' & Hk' & Hlt). exists k'. split; [done|lia].
Qed.

(** *** The peers *)

Lemma same_endpoints_refl (cn : socketsConfig) : same_endpoints cn cn.
Proof. intros n. by destruct (hostDict cn !! n). Qed.

Lemma same_endpoints_set_root (cn0 cn : socketsConfig) (nb : string) (h : handle) :
  same_endpoints cn0 cn → same_endpoints cn0 (set_root nb h cn).
Proof.
  intros Hsame n. specialize (Hsame n).
  unfold set_root. cbn [hostDict]. rewrite lookup_alter.
  destruct (decide (nb = n)) as [->|Hne]; [|done].
  destruct (hostDict cn0 !! n), (hostDict cn !! n); done.
Qed.

Lemma connected_events_no_invoke (target : host) (h : handle) (k : nat) :
  Forall (λ ev, is_invoke ev = false) (connected_events p target h k).
Proof.
  unfold connected_events. apply Forall_app. split.
  - apply Forall_replicate. reflexivity.
  - by repeat constructor.
Qed.

(** When every neighbour connects, [connect_peers] ends with every one of
    them connected: it only adds events, none of them a call of the
    continuation, among them the connection of each neighbour, and it
    stores each neighbour's handle in the registry. *)
Lemma connect_peers_all (cn0 : socketsConfig) (bound fuel : nat) (nbs : list string) :
  (bound ≤ fuel)%nat →
  (∀ nb, nb ∈ nbs →
     ∃ k, (∃ e, hostDict cn0 !! nb = Some e ∧ succeeds net p e k) ∧ k < bound) →
  ∀ c, same_endpoints cn0 (co_classicalNet c) →
  ∃ c' evs,
    connect_peers net p fuel nbs c = Some c'
    ∧ co_phase c' = co_phase c ∧ co_qReg c' = co_qReg c
    ∧ co_virtRoot c' = co_virtRoot c ∧ co_server c' = co_server c
    ∧ co_listening c' = co_listening c
    ∧ co_trace c' = co_trace c ++ evs
    ∧ Forall (λ ev, is_invoke ev = false) evs
    ∧ (∀ nb e, nb ∈ nbs → hostDict cn0 !! nb = Some e →
         Connected (name e) (handle_to ClassicalPeer e) ∈ evs
         ∧ hostDict (co_classicalNet c') !! nb = Some (connected_entry e))
    ∧ (∀ n, n ∉ nbs →
         hostDict (co_classicalNet c') !! n = hostDict (co_classicalNet c) !! n)
    ∧ same_endpoints cn0 (co_classicalNet c').
Proof.
  intros Hfuel. induction nbs as [|nb rest IH]; intros Hall c Hsame.
  - exists c, []. cbn [connect_peers]. rewrite app_nil_r.
    split_and!; try done.
    + by intros ? ? ?%elem_of_nil.
  - destruct (Hall nb) as (k & (e & Hlookup & Hsucc) & Hk); [apply list_elem_of_here|].
    pose proof (Hsame nb) as Hnb. rewrite Hlookup in Hnb.
    destruct (hostDict (co_classicalNet c) !! nb) as [e'|] eqn:Hlookup'; [|done].
    destruct Hnb as (Hname & Hhost & Hport).
    cbn [connect_peers]. rewrite Hlookup'.
    rewrite <- (ConnectionAttempt_endpoint e e') by done.
    rewrite (ConnectionAttempt_succeeds e k fuel Hsucc) by lia.
    set (h := handle_to ClassicalPeer e').
    set (c1 := Coordinator _ _ _ (set_root nb h _) _ _ _).
    destruct (IH (λ x Hx, Hall x (list_elem_of_further _ _ _ Hx)) c1)
      as (c' & evs & Hrun & Hphase & HqReg & HvirtRoot & Hserver & Hlistening
          & Htrace & Hnoinvoke & Hpeers & Hothers & Hsame').
    { by apply same_endpoints_set_root. }
    assert (Hh : h = handle_to ClassicalPeer e).
    { unfold h, handle_to. by rewrite Hhost, Hport. }
    exists c', (connected_events p e' h k ++ evs).
    split_and!; try done.
    + rewrite Htrace. unfold c1. cbn [co_trace emit]. by rewrite <- (assoc_L (++)).
    + apply Forall_app. split; [apply connected_events_no_invoke|done].
    + intros n e0 Hn Hlookup0.
      destruct (decide (n ∈ rest)) as [Hin|Hnotin].
      * destruct (Hpeers n e0 Hin Hlookup0) as [Hconn Hentry].
        split; [|done]. apply elem_of_app. by right.
      * apply elem_of_cons in Hn as [->|?]; [|done].
        assert (e0 = e) as -> by congruence.
        split.
        -- apply elem_of_app. left. unfold connected_events.
           apply elem_of_app. right. rewrite Hh, <- Hname.
           apply list_elem_of_here.
        -- rewrite (Hothers nb Hnotin). unfold c1, set_root.
           cbn [co_classicalNet hostDict emit].
           rewrite lookup_alter_eq, Hlookup'.
           cbn [fmap option_fmap option_map]. unfold connected_entry.
           by rewrite Hh, Hname, Hhost, Hport.
    + intros n Hn. apply not_elem_of_cons in Hn as [Hne Hn].
      rewrite (Hothers n Hn). unfold c1, set_root.
      cbn [co_classicalNet hostDict emit]. by rewrite lookup_alter_ne.
Qed.

(** *** The whole bootstrap *)

(** When the backend and every neighbour connect, [setup_local] with
    enough fuel ends [Running], having called the continuation with the
    two backend handles and the registry of connected peers as the last
    thing it did, after every connection. *)
Lemma setup_local_runs (myName : string) (virtualNet classicalNet : socketsConfig)
    (func : continuation) (lNode : option localNode) (backend : host) :
  hostDict virtualNet !! myName = Some backend →
  connects net p backend →
  (∀ nb e, nb ≠ myName → hostDict classicalNet !! nb = Some e → connects net p e) →
  ∃ fuel0, ∀ fuel, (fuel0 ≤ fuel)%nat →
    ∃ c pre,
      setup_local net p myName virtualNet func classicalNet lNode fuel = Some c
      ∧ co_phase c = Running
      ∧ co_qReg c = Some (handle_to Register backend)
      ∧ co_virtRoot c = Some (handle_to VirtualNode backend)
      ∧ co_server c = late_bound backend <$> lNode
      ∧ co_trace c
        = pre ++ Invoke (handle_to Register backend) (handle_to VirtualNode backend)
                   myName (co_classicalNet c)
              :: func (handle_to Register backend) (handle_to VirtualNode backend)
                   myName (co_classicalNet c)
      ∧ Forall (λ ev, is_invoke ev = false) pre
      ∧ all_links_live myName classicalNet backend pre (co_classicalNet c).
Proof.
  intros Hbackend [k0 Hk0] Hpeers.
  destruct (common_bound
              (λ nb k, ∃ e, hostDict classicalNet !! nb = Some e ∧ succeeds net p e k)
              (neighbours_of myName classicalNet)) as [bound Hbound].
  { intros nb Hnb. unfold neighbours_of in Hnb.
    apply list_elem_of_filter in Hnb as [Hne Hin].
    apply elem_of_elements, elem_of_dom in Hin as [e He].
    destruct (Hpeers nb e Hne He) as [k Hk]. exists k, e. done. }
  exists (S k0 `max` bound). intros fuel Hfuel.
  unfold setup_local, initial.
  destruct lNode as [srv|];
    cbn [drive step co_phase co_server co_qReg co_virtRoot co_classicalNet
         co_listening co_trace goto];
    rewrite Hbackend;
    rewrite (ConnectionAttempt_succeeds backend k0 fuel Hk0) by lia;
    cbn [drive step co_phase co_server co_qReg co_virtRoot co_classicalNet
         co_listening co_trace goto];
    match goal with
    | |- context [connect_peers net p fuel _ ?c2] =>
        destruct (connect_peers_all classicalNet bound fuel
                    (neighbours_of myName classicalNet) ltac:(lia) Hbound c2
                    (same_endpoints_refl _))
          as (c3 & evs & Hrun & Hphase & HqReg & HvirtRoot & Hserver
              & Hlistening & Htrace & Hnoinvoke & Hconn & Hothers & _)
    end;
    rewrite Hrun;
    destruct c3 as [ph3 q3 v3 cn3 srv3 lis3 tr3];
    cbn [co_phase co_server co_qReg co_virtRoot co_classicalNet
         co_listening co_trace] in *;
    subst ph3 q3 v3 srv3 lis3 tr3;
    cbn [drive step co_phase co_server co_qReg co_virtRoot co_classicalNet
         co_listening co_trace goto emit fmap option_fmap option_map].
  all: eexists _, (_ ++ evs).
  all: split_and!; try reflexivity.
  all: try (apply Forall_app; split; [|exact Hnoinvoke]).
  all: try (repeat (apply Forall_app; split);
            try apply Forall_replicate; by repeat constructor).
  all: unfold all_links_live; cbn [co_classicalNet goto emit]; split.
  all: try (unfold connected_events; rewrite !elem_of_app, !elem_of_cons; tauto).
  all: intros nb e Hne He;
    destruct (Hconn nb e) as [Hin Hentry]; [|exact He|];
    [ unfold neighbours_of; apply list_elem_of_filter; split; [exact Hne|];
      apply elem_of_elements, elem_of_dom; by eexists
    | split; [|exact Hentry]; apply elem_of_app; by right ].
Qed.

(** *** Counting the calls of the continuation *)

Lemma invocations_app (l1 l2 : list event) :
  invocations (l1 ++ l2) = invocations l1 + invocations l2.
Proof. unfold invocations. by rewrite filter_app, length_app. Qed.

Lemma invocations_none (l : list event) :
  Forall (λ ev, is_invoke ev = false) l → invocations l = 0.
Proof.
  unfold invocations. induction 1 as [|ev l Hev _ IH]; [reflexivity|].
  rewrite filter_cons_False; [exact IH|]. by rewrite Hev.
Qed.

Lemma invocations_emit (evs : list event) (c : coordinator) :
  Forall (λ ev, is_invoke ev = false) evs →
  invocations (co_trace (emit evs c)) = invocations (co_trace c).
Proof.
  intros Hevs. cbn [emit co_trace].
  rewrite invocations_app, (invocations_none evs Hevs). lia.
Qed.

(** [runClientNode] does not call itself. *)
Lemma runClientNode_no_invoke (r v : handle) (myName : string) (cn : socketsConfig) :
  Forall (λ ev, is_invoke ev = false) (runClientNode r v myName cn).
Proof. unfold runClientNode. by repeat constructor. Qed.

(** Connecting the peers never calls the continuation, whether the
    peers connect or not, and leaves the phase or fails. *)
Lemma connect_peers_invocations (fuel : nat) (nbs : list string) :
  ∀ c c', connect_peers net p fuel nbs c = Some c' →
    invocations (co_trace c') = invocations (co_trace c)
    ∧ (co_phase c' = co_phase c ∨ co_phase c' = Failed).
Proof.
  induction nbs as [|nb rest IH]; intros c c' Hrun; cbn [connect_peers] in Hrun.
  - injection Hrun as <-. auto.
  - destruct (hostDict (co_classicalNet c) !! nb) as [target|].
    + destruct (ConnectionAttempt net p target fuel 0 0) as [[k|elapsed]|];
        [| |discriminate].
      * apply IH in Hrun as [Hcount Hphase].
        cbn [co_trace co_phase emit] in Hcount, Hphase.
        split; [|exact Hphase].
        rewrite Hcount, invocations_app.
        rewrite (invocations_none _ (connected_events_no_invoke _ _ _)). lia.
      * injection Hrun as <-. split; [|by right].
        unfold expired_events. cbn [goto co_trace].
        apply invocations_emit. by repeat constructor.
    + injection Hrun as <-. split; [|by right].
      unfold fail. cbn [goto co_trace].
      apply invocations_emit. by repeat constructor.
Qed.

Lemma step_called_once (myName : string) (virtualNet : socketsConfig)
    (fuel : nat) (c c' : coordinator) :
  called_once_iff_running c →
  step net p myName virtualNet runClientNode fuel c = Some c' →
  called_once_iff_running c'.
Proof.
  unfold called_once_iff_running, step. intros Hinv Hstep.
  destruct c as [ph q v cn srv lis tr].
  cbn [co_phase co_qReg co_virtRoot co_classicalNet co_server co_listening
       co_trace] in *.
  destruct ph.
  - (* Idle *)
    destruct srv as [s|]; injection Hstep as <-; cbn [co_trace co_phase goto].
    + rewrite invocations_app, Hinv. reflexivity.
    + rewrite Hinv. reflexivity.
  - (* ConnectingBackend *)
    destruct (hostDict virtualNet !! myName) as [target|].
    + destruct (ConnectionAttempt net p target fuel 0 0) as [[k|elapsed]|];
        [| |discriminate]; injection Hstep as <-; cbn [co_trace co_phase goto].
      * rewrite invocations_app, Hinv.
        rewrite (invocations_none _ (connected_events_no_invoke _ _ _)).
        reflexivity.
      * rewrite invocations_emit by (by repeat constructor).
        cbn [co_trace]. rewrite Hinv. reflexivity.
    + injection Hstep as <-. unfold fail. cbn [co_trace co_phase goto].
      rewrite invocations_emit by (by repeat constructor).
      cbn [co_trace]. rewrite Hinv. reflexivity.
  - (* ConnectingPeers *)
    destruct (connect_peers _ _ _ _ _) as [c1|] eqn:Hpeers; [|discriminate].
    apply connect_peers_invocations in Hpeers as [Hcount Hphase].
    cbn [co_trace co_phase] in Hcount, Hphase.
    destruct Hphase as [Hphase|Hphase]; rewrite Hphase in Hstep;
      injection Hstep as <-; cbn [co_trace co_phase goto];
      rewrite ?Hphase, Hcount, Hinv; reflexivity.
  - (* ServerCheck *)
    destruct srv as [s|]; [destruct lis|]; injection Hstep as <-;
      unfold fail; cbn [co_trace co_phase goto];
      rewrite ?invocations_emit by (by repeat constructor);
      cbn [co_trace]; rewrite Hinv; reflexivity.
  - (* Ready *)
    destruct q as [r|], v as [v|]; injection Hstep as <-;
      cbn [co_trace co_phase goto emit]; try (rewrite Hinv; reflexivity).
    rewrite invocations_app, Hinv.
    change (Invoke r v myName cn :: runClientNode r v myName cn)
      with ([Invoke r v myName cn] ++ runClientNode r v myName cn).
    rewrite (invocations_app [Invoke r v myName cn]).
    rewrite (invocations_none _ (runClientNode_no_invoke r v myName cn)).
    reflexivity.
  - (* Running *)
    injection Hstep as <-. exact Hinv.
  - (* Failed *)
    injection Hstep as <-. exact Hinv.
Qed.

Lemma drive_called_once (myName : string) (virtualNet : socketsConfig)
    (n fuel : nat) :
  ∀ c c', called_once_iff_running c →
    drive net p myName virtualNet runClientNode n fuel c = Some c' →
    called_once_iff_running c'.
Proof.
  induction n as [|n IH]; intros c c' Hinv Hdrive; cbn [drive] in Hdrive.
  - by injection Hdrive as <-.
  - destruct (step _ _ _ _ _ _ _) as [c1|] eqn:Hstep; [|discriminate].
    eapply IH; [|exact Hdrive]. by eapply step_called_once.
Qed.

(** A coordinator that is [Running] stays as it is. *)
Lemma drive_running (myName : string) (virtualNet : socketsConfig)
    (func : continuation) (n fuel : nat) (c : coordinator) :
  co_phase c = Running →
  drive net p myName virtualNet func n fuel c = Some c.
Proof.
  intros Hrunning. induction n as [|n IH]; [reflexivity|].
  cbn [drive]. unfold step. by rewrite Hrunning.
Qed.

(** Whatever the network does and however far the bootstrap of [main]
    got, the continuation has been called once if the coordinator is
    [Running] and not at all otherwise. *)
Lemma main_called_once_iff_running (myName : string)
    (virtualNet classicalNet : socketsConfig) (n fuel : nat) (c : coordinator) :
  drive net p myName virtualNet runClientNode n fuel
    (initial classicalNet (local_server myName classicalNet)) = Some c →
  called_once_iff_running c.
Proof.
  apply drive_called_once. reflexivity.
Qed.

(** C1: when the backend connection and the connection to every other node
    of the classical registry succeed within their timeouts, the bootstrap
    of [main] ends [Running] with [runClientNode] called exactly once, as
    the last step, with the two backend handles and the registry in which
    every peer's handle is stored; no call precedes the connections, and
    no further transition calls it again. *)
Theorem runClientNode_invoked_exactly_once (myName : string)
    (virtualNet classicalNet : socketsConfig) (backend : host) :
  hostDict virtualNet !! myName = Some backend →
  connects net p backend →
  (∀ nb e, nb ≠ myName → hostDict classicalNet !! nb = Some e → connects net p e) →
  ∃ fuel0, ∀ fuel, (fuel0 ≤ fuel)%nat →
    ∃ c pre,
      main_as myName net p virtualNet classicalNet fuel = Some c
      ∧ co_phase c = Running
      ∧ co_trace c
        = pre ++ Invoke (handle_to Register backend) (handle_to VirtualNode backend)
                   myName (co_classicalNet c)
              :: runClientNode (handle_to Register backend)
                   (handle_to VirtualNode backend) myName (co_classicalNet c)
      ∧ invocations pre = 0
      ∧ invocations (co_trace c) = 1
      ∧ all_links_live myName classicalNet backend pre (co_classicalNet c)
      ∧ (∀ n, drive net p myName virtualNet runClientNode n fuel c = Some c)
      ∧ (∀ n c', drive net p myName virtualNet runClientNode n fuel
                   (initial classicalNet (local_server myName classicalNet)) = Some c' →
                 called_once_iff_running c').
Proof.
  intros Hbackend Hconnects Hpeers.
  destruct (setup_local_runs myName virtualNet classicalNet runClientNode
              (local_server myName classicalNet) backend Hbackend Hconnects Hpeers)
    as [fuel0 Hruns].
  exists fuel0. intros fuel Hfuel.
  destruct (Hruns fuel Hfuel)
    as (c & pre & Hmain & Hphase & _ & _ & _ & Htrace & Hpre & Hlive).
  exists c, pre. unfold main_as, main_call. cbn [arg_myName arg_virtualNet
    arg_classicalNet arg_lNode arg_func].
  split_and!; try done.
  - by apply invocations_none.
  - assert (Hinv : called_once_iff_running c).
    { eapply (drive_called_once myName virtualNet 5 fuel); [|exact Hmain].
      reflexivity. }
    unfold called_once_iff_running in Hinv. by rewrite Hphase in Hinv.
  - intros n. by apply drive_running.
  - intros n c'. apply main_called_once_iff_running.
Qed.

End Bootstrap.

(** Alice's bootstrap in the two-node network: with three tries per
    attempt she runs, after ten events, one of them the call. *)
Example alice_runs :
  (λ c, (NodeTest.co_phase c, NodeTest.invocations (NodeTest.co_trace c),
         length (NodeTest.co_trace c)))
    <$> NodeTest.main_as "Alice" NodeTest.slow_start NodeTest.patient
          NodeTest.two_virtual NodeTest.two_classical 3
  = Some (NodeTest.Running, 1, 10).
Proof. vm_compute. reflexivity. Qed.

(** With two tries per attempt the backend attempt is still retrying. *)
Example alice_still_retrying :
  NodeTest.main_as "Alice" NodeTest.slow_start NodeTest.patient
    NodeTest.two_virtual NodeTest.two_classical 2 = None.
Proof. vm_compute. reflexivity. Qed.

(** With a timeout of 150 the backend attempt gives up after two waits
    and the continuation is never called. *)
Example alice_times_out :
  (λ c, (NodeTest.co_phase c, NodeTest.co_trace c))
    <$> NodeTest.main_as "Alice" NodeTest.slow_start
          (NodeTest.Policy 100 (Some 150%N))
          NodeTest.two_virtual NodeTest.two_classical 3
  = Some (NodeTest.Failed,
          [NodeTest.Listening 8811;
           NodeTest.Failure (ConnectionTimeout "Alice" 200)]).
Proof. vm_compute. reflexivity. Qed.

(** Witness of C1: Alice in the two-node network, whose endpoints answer
    from the third try on. *)
Lemma runClientNode_invoked_exactly_once_witness :
  ∃ fuel0, ∀ fuel, (fuel0 ≤ fuel)%nat →
    ∃ c pre,
      NodeTest.main_as "Alice" NodeTest.slow_start NodeTest.patient
        NodeTest.two_virtual NodeTest.two_classical fuel = Some c
      ∧ NodeTest.co_phase c = NodeTest.Running
      ∧ NodeTest.invocations pre = 0
      ∧ NodeTest.invocations (NodeTest.co_trace c) = 1.
Proof.
  assert (Hall : ∀ e, NodeTest.connects NodeTest.slow_start NodeTest.patient e).
  { intros e. exists 2. split_and!.
    - reflexivity.
    - intros j Hj. unfold NodeTest.slow_start. apply Nat.leb_gt. lia.
    - right. cbn. lia. }
  destruct (runClientNode_invoked_exactly_once NodeTest.slow_start NodeTest.patient
              "Alice" NodeTest.two_virtual NodeTest.two_classical
              (NodeTest.Host "Alice" "localhost" 8801 None)
              eq_refl (Hall _) (λ nb e _ _, Hall e)) as [fuel0 Hruns].
  exists fuel0. intros fuel Hfuel.
  destruct (Hruns fuel Hfuel) as (c & pre & Hmain & Hphase & _ & Hpre & Hcount & _).
  exists c, pre. split_and!; assumption.
Defined.

(** * Further properties of [SimulaQron.py] *)

(** ** Splitting and joining *)

Section SplitJoin.

(** String concatenation computes on its first argument. *)
Lemma append_cons (c : ascii) (a b : string) :
  String c a +:+ b = String c (a +:+ b).
Proof. reflexivity. Qed.

Lemma append_nil_l (s : string) : "" +:+ s = s.
Proof. reflexivity. Qed.

Lemma append_nil_r (s : string) : s +:+ "" = s.
Proof.
  induction s as [|c s IH]; [done|]. by rewrite append_cons, IH.
Qed.

Lemma append_assoc (a b c : string) : (a +:+ b) +:+ c = a +:+ (b +:+ c).
Proof.
  induction a as [|x a IH]; [done|]. by rewrite !append_cons, IH.
Qed.

Lemma count_append (c : ascii) (a b : string) :
  Py.count c (a +:+ b) = Py.count c a + Py.count c b.
Proof.
  induction a as [|x a IH]; [done|].
  rewrite append_cons. cbn [Py.count]. rewrite IH. lia.
Qed.

(** Joining the fields with the separator gives the string back. *)
Lemma split_join (sep : ascii) (s : string) :
  Py.join (String sep "") (Py.split sep s) = s.
Proof.
  induction s as [|c s IH]; [reflexivity|].
  cbn [Py.split]. destruct (Ascii.eqb_spec c sep) as [->|Hne].
  - pose proof (split_nonempty sep s) as Hnonempty.
    cbn [Py.join]. destruct (Py.split sep s) as [|field fields]; [done|].
    rewrite IH. reflexivity.
  - destruct (Py.split sep s) as [|field fields] eqn:Hsplit.
    + by destruct (split_nonempty sep s).
    + rewrite <- IH. cbn [Py.join]. by destruct fields.
Qed.

(** There is one field more than there are separators. *)
Lemma split_length (sep : ascii) (s : string) :
  length (Py.split sep s) = S (Py.count sep s).
Proof.
  induction s as [|c s IH]; [reflexivity|].
  cbn [Py.split Py.count]. destruct (Ascii.eqb c sep).
  - cbn [length]. by rewrite IH.
  - destruct (Py.split sep s); cbn [length] in *; lia.
Qed.

(** No field contains the separator. *)
Lemma split_no_sep (sep : ascii) (s : string) :
  Forall (λ field, Py.count sep field = 0) (Py.split sep s).
Proof.
  induction s as [|c s IH]; [by repeat constructor|].
  cbn [Py.split]. destruct (Ascii.eqb c sep) eqn:Hc.
  - by constructor.
  - destruct (Py.split sep s) as [|field fields] eqn:Hsplit.
    { by destruct (split_nonempty sep s). }
    apply Forall_cons in IH as [Hfield Hfields].
    constructor; [|done]. cbn [Py.count]. by rewrite Hc, Hfield.
Qed.

End SplitJoin.

(** ** More on the node names of [run] *)

Section RunNodesMore.

Import SimulaQron.

(** X1: The names listed with [--nodes] are its comma-separated fields: joined
    by commas they give the option's string back, none of them contains a
    comma, and a non-empty string has one field more than it has commas
    (empty fields are names too). *)
Theorem explicit_nodes_fields (d : SimulaQronDaemon) (s : string) :
  nodes d = Some s →
  Py.join "," (explicit_nodes d) = s
  ∧ Forall (λ x, Py.count "," x = 0) (explicit_nodes d)
  ∧ (s ≠ "" → length (explicit_nodes d) = S (Py.count "," s)).
Proof.
  intros Hnodes. unfold explicit_nodes. rewrite Hnodes.
  destruct s as [|c s]; cbn [Py.truthy_str].
  - split_and!; [reflexivity|constructor|done].
  - split_and!.
    + apply split_join.
    + apply split_no_sep.
    + intros _. apply split_length.
Qed.

Lemma padding_length (d : SimulaQronDaemon) (listed : list string) :
  length (padding d listed)
  = Z.to_nat (default 0%Z (nrnodes d)) - length listed.
Proof.
  unfold padding. destruct (nrnodes d) as [n|];
    cbn [default from_option id]; [|reflexivity].
  unfold Py.truthy_int, Py.range.
  destruct (Z.eqb_spec n 0) as [->|Hn]; cbn [negb andb]; [reflexivity|].
  destruct (Z.ltb_spec (Z.of_nat (length listed)) n) as [Hlt|Hge].
  - rewrite length_fmap, length_seq. lia.
  - cbn [length]. lia.
Qed.

Lemma padding_lookup (d : SimulaQronDaemon) (listed : list string) (i : nat) :
  i < length (padding d listed) → padding d listed !! i = Some (node_name i).
Proof.
  unfold padding. destruct (nrnodes d) as [n|]; [|cbn [length]; lia].
  destruct (_ && _); [|cbn [length]; lia].
  rewrite length_fmap. unfold Py.range. rewrite length_seq. intros Hi.
  rewrite list_lookup_fmap, lookup_seq_lt by done. reflexivity.
Qed.

(** X2: When [run] builds a list, [nrnodes] is a lower bound on its length and
    never shortens it: the list has as many names as the larger of the
    number of listed names and [nrnodes]; the listed names come first, in
    their order, and the name at position [len(listed) + i] is [Node<i>]. *)
Theorem run_nodes_length (d : SimulaQronDaemon) (l : list string) :
  run_nodes d = NodesList l →
  length l
  = length (explicit_nodes d) `max` Z.to_nat (default 0%Z (nrnodes d))
  ∧ (∀ i : nat, i < length (explicit_nodes d) → l !! i = explicit_nodes d !! i)
  ∧ (∀ i : nat,
       length (explicit_nodes d) + i < Z.to_nat (default 0%Z (nrnodes d)) →
       l !! (length (explicit_nodes d) + i) = Some (node_name i)).
Proof.
  unfold run_nodes. intros Hrun.
  destruct (_ || _); [|destruct (nodes d); discriminate].
  injection Hrun as <-.
  pose proof (padding_length d (explicit_nodes d)) as Hlen.
  split_and!.
  - rewrite length_app, Hlen. lia.
  - intros i Hi. by rewrite lookup_app_l.
  - intros i Hi. rewrite lookup_app_r by lia.
    replace (length (explicit_nodes d) + i - length (explicit_nodes d)) with i by lia.
    apply padding_lookup. lia.
Qed.

End RunNodesMore.

(** Witness of [explicit_nodes_fields]: two listed names. *)
Lemma explicit_nodes_fields_witness :
  Py.join ","
    (SimulaQron.explicit_nodes
       (SimulaQron.Daemon "p" (Some "default") None (Some "Alice,Bob") None))
  = "Alice,Bob".
Proof.
  exact (proj1 (explicit_nodes_fields
                  (SimulaQron.Daemon "p" (Some "default") None (Some "Alice,Bob") None)
                  "Alice,Bob" eq_refl)).
Defined.

(** Witness of [run_nodes_length]: one listed name and [nrnodes] 3. *)
Lemma run_nodes_length_witness :
  length ["Alice"; "Node0"; "Node1"]
  = length (SimulaQron.explicit_nodes
              (SimulaQron.Daemon "p" (Some "default") (Some 3%Z) (Some "Alice") None))
    `max` Z.to_nat (default 0%Z
             (SimulaQron.nrnodes
                (SimulaQron.Daemon "p" (Some "default") (Some 3%Z) (Some "Alice") None))).
Proof.
  assert (Hrun :
    SimulaQron.run_nodes
      (SimulaQron.Daemon "p" (Some "default") (Some 3%Z) (Some "Alice") None)
    = SimulaQron.NodesList ["Alice"; "Node0"; "Node1"]).
  { vm_compute. reflexivity. }
  exact (proj1 (run_nodes_length _ _ Hrun)).
Defined.

(** ** Networks under different names, and repeated commands *)

Section Names.

Import SimulaQron.

Variable module_dir : string.

Lemma length_append (a b : string) :
  String.length (a +:+ b) = String.length a + String.length b.
Proof.
  induction a as [|c a IH]; [done|].
  rewrite append_cons. cbn [String.length]. by rewrite IH.
Qed.

(** Concatenation can be cancelled on the right. *)
Lemma append_inj_r (a b c : string) : a +:+ c = b +:+ c → a = b.
Proof.
  revert b. induction a as [|x a IH]; intros [|y b] Heq.
  - reflexivity.
  - apply (f_equal String.length) in Heq.
    rewrite append_nil_l, length_append in Heq. cbn [String.length] in Heq. lia.
  - apply (f_equal String.length) in Heq.
    rewrite append_nil_l, length_append in Heq. cbn [String.length] in Heq. lia.
  - rewrite !append_cons in Heq. injection Heq as -> Heq.
    f_equal. by apply IH.
Qed.

(** A relative path is joined to the folder's prefix. *)
Lemma path_join_relative (a b : string) :
  (∀ b', b ≠ String "/" b') → Py.path_join a b = folder_prefix a +:+ b.
Proof.
  intros Hrel. unfold Py.path_join, folder_prefix.
  assert (Hjoin : ∀ x y : string,
            match b with String "/" _ => x | _ => y end = y).
  { intros x y. destruct b as [|c b]; [done|].
    destruct (Ascii.eqb_spec c "/") as [->|Hc]; [by destruct (Hrel b)|].
    destruct c as [[] [] [] [] [] [] [] []]; try reflexivity.
    by destruct Hc. }
  rewrite Hjoin.
  destruct (Py.last_char a) as [x|]; [|done].
  destruct x as [[] [] [] [] [] [] [] []]; by rewrite ?append_assoc.
Qed.

Lemma pidfile_of_prefix (name : string) :
  pidfile_of module_dir name
  = folder_prefix (PID_FOLDER module_dir)
    +:+ "simulaqron_network_" +:+ name +:+ ".pid".
Proof.
  unfold pidfile_of. apply path_join_relative.
  intros b'. rewrite append_cons. discriminate.
Qed.

(** Different names have different pid files. *)
Lemma pidfile_of_inj (n1 n2 : string) :
  pidfile_of module_dir n1 = pidfile_of module_dir n2 → n1 = n2.
Proof.
  rewrite !pidfile_of_prefix. intros Heq.
  apply (inj (String.append _)) in Heq.
  apply (inj (String.append _)) in Heq.
  by apply append_inj_r in Heq.
Qed.

(** The pid records after [start]. *)
Lemma start_records (name : option string) (nrnodes : option Z)
    (nodes topology : option string) (w : world) :
  pid_records (snd (start module_dir name nrnodes nodes topology w))
  = match pid_records w !! pidfile_of module_dir (name_or_default name) with
    | Some _ => pid_records w
    | None =>
        <[pidfile_of module_dir (name_or_default name) :=
            Daemon (pidfile_of module_dir (name_or_default name))
              (Some (name_or_default name)) nrnodes nodes topology]>
          (pid_records w)
    end.
Proof.
  destruct (pid_records w !! pidfile_of module_dir (name_or_default name))
    as [d|] eqn:Hlookup.
  - unfold start, bind, setup_cqc_files, logging_warning, perform, ret.
    rewrite path_exists_true by (cbn [pid_records]; rewrite Hlookup; by eexists).
    reflexivity.
  - by rewrite start_fresh.
Qed.

(** The pid records after [stop]. *)
Lemma stop_records (name : option string) (w : world) :
  pid_records (snd (stop module_dir name w))
  = delete (pidfile_of module_dir (name_or_default name)) (pid_records w).
Proof.
  destruct (pid_records w !! pidfile_of module_dir (name_or_default name))
    as [d|] eqn:Hlookup.
  - rewrite stop_running by (rewrite Hlookup; by eexists). reflexivity.
  - unfold stop, bind, logging_warning, perform, ret.
    rewrite path_exists_false by done. cbn [snd pid_records].
    by rewrite delete_id.
Qed.

(** X4: Networks under different names do not interfere: neither [start] nor
    [stop] of one name changes the pid record of another, whether or not
    either is running. *)
Theorem names_do_not_interfere
    (n1 n2 : option string) (nrnodes : option Z) (nodes topology : option string)
    (w : world) :
  name_or_default n1 ≠ name_or_default n2 →
  pid_records (snd (start module_dir n1 nrnodes nodes topology w))
    !! pidfile_of module_dir (name_or_default n2)
  = pid_records w !! pidfile_of module_dir (name_or_default n2)
  ∧ pid_records (snd (stop module_dir n1 w))
      !! pidfile_of module_dir (name_or_default n2)
    = pid_records w !! pidfile_of module_dir (name_or_default n2).
Proof.
  intros Hne.
  assert (Hpath : pidfile_of module_dir (name_or_default n1)
                  ≠ pidfile_of module_dir (name_or_default n2)).
  { intros Heq. by apply Hne, pidfile_of_inj. }
  split.
  - rewrite start_records.
    destruct (pid_records w !! pidfile_of module_dir (name_or_default n1));
      [reflexivity|].
    by rewrite lookup_insert_ne.
  - rewrite stop_records. by rewrite lookup_delete_ne.
Qed.

(** X5: After [start] the network is recorded as running, whatever the state
    before, and a second [start] of the same name, with whatever other
    options, only logs the warning: it leaves the pid records as the first
    one left them and starts no second daemon. *)
Theorem start_twice_starts_once
    (name : option string) (nrnodes nrnodes' : option Z)
    (nodes topology nodes' topology' : option string) (w : world) :
  is_Some (pid_records (snd (start module_dir name nrnodes nodes topology w))
             !! pidfile_of module_dir (name_or_default name))
  ∧ start module_dir name nrnodes' nodes' topology'
      (snd (start module_dir name nrnodes nodes topology w))
    = (Return,
       World (pid_records (snd (start module_dir name nrnodes nodes topology w)))
         (effects (snd (start module_dir name nrnodes nodes topology w)) ++
          [SetupCqcFiles;
           LogWarning ("Network with name " +:+ name_or_default name
                       +:+ " is already running")])).
Proof.
  assert (Hrunning :
    is_Some (pid_records (snd (start module_dir name nrnodes nodes topology w))
               !! pidfile_of module_dir (name_or_default name))).
  { rewrite start_records.
    destruct (pid_records w !! pidfile_of module_dir (name_or_default name))
      as [d|] eqn:Hlookup.
    - rewrite Hlookup. by eexists.
    - rewrite lookup_insert_eq. by eexists. }
  split; [exact Hrunning|].
  set (w1 := snd (start module_dir name nrnodes nodes topology w)) in *.
  unfold start at 1, bind, setup_cqc_files, logging_warning, perform, ret.
  rewrite path_exists_true by exact Hrunning.
  cbn [pid_records effects]. by rewrite <- (assoc_L (++)).
Qed.


(** X7: Starting a network that is not running and stopping it again restores
    the pid records, for every name. *)
Theorem start_stop_round_trip
    (name : option string) (nrnodes : option Z) (nodes topology : option string)
    (w : world) :
  pid_records w !! pidfile_of module_dir (name_or_default name) = None →
  pid_records
    (snd (stop module_dir name
            (snd (start module_dir name nrnodes nodes topology w))))
  = pid_records w.
Proof.
  intros Habsent. rewrite stop_records, start_records, Habsent.
  by apply delete_insert_id.
Qed.

End Names.

(** Witness of [names_do_not_interfere]: starting and stopping "lab"
    while the default network runs. *)
Lemma names_do_not_interfere_witness :
  SimulaQron.pid_records
    (snd (SimulaQron.stop "/opt/simulaqron" (Some "lab")
            (SimulaQron.default_running "/opt/simulaqron")))
    !! SimulaQron.pidfile_of "/opt/simulaqron" (SimulaQron.name_or_default None)
  = SimulaQron.pid_records (SimulaQron.default_running "/opt/simulaqron")
      !! SimulaQron.pidfile_of "/opt/simulaqron" (SimulaQron.name_or_default None).
Proof.
  assert (Hne : SimulaQron.name_or_default (Some "lab")
                ≠ SimulaQron.name_or_default None) by discriminate.
  exact (proj2 (names_do_not_interfere "/opt/simulaqron" (Some "lab") None
                  None None None (SimulaQron.default_running "/opt/simulaqron") Hne)).
Defined.

(** Witness of [start_stop_round_trip]: the network "lab" in an empty pid
    folder. *)
Lemma start_stop_round_trip_witness :
  SimulaQron.pid_records
    (snd (SimulaQron.stop "/opt/simulaqron" (Some "lab")
            (snd (SimulaQron.start "/opt/simulaqron" (Some "lab") (Some 2%Z)
                    None None (SimulaQron.World ∅ [])))))
  = ∅.
Proof.
  exact (start_stop_round_trip "/opt/simulaqron" (Some "lab") (Some 2%Z) None None
           (SimulaQron.World ∅ []) (lookup_empty _)).
Defined.

(** ** The [reset] command *)

Section ResetProperties.

Import SimulaQron.

Variable module_dir : string.
Variable cleans : SimulaQronDaemon → bool.

Lemma strip_prefix_Some (prefix s r : string) :
  Py.strip_prefix prefix s = Some r ↔ s = prefix +:+ r.
Proof.
  revert s. induction prefix as [|a prefix IH]; intros s; cbn [Py.strip_prefix].
  - rewrite append_nil_l. split; congruence.
  - rewrite append_cons. destruct s as [|b s]; [split; discriminate|].
    destruct (Ascii.eqb_spec a b) as [->|Hne].
    + rewrite IH. split; [by intros ->|]. by intros [= ->].
    + split; [discriminate|]. intros [= ? ?]. by destruct Hne.
Qed.

(** A file is listed under the name that leads back to its path. *)
Lemma entry_of_Some (folder path entry : string) :
  entry_of folder path = Some entry ↔
  path = folder_prefix folder +:+ entry ∧ entry ≠ "" ∧ Py.count "/" entry = 0.
Proof.
  unfold entry_of.
  destruct (Py.strip_prefix (folder_prefix folder) path) as [r|] eqn:Hstrip.
  - apply strip_prefix_Some in Hstrip as ->.
    destruct (String.eqb_spec r "") as [->|Hr]; cbn [orb].
    + split; [discriminate|]. intros (Heq & Hne & _).
      apply (inj (String.append _)) in Heq as <-. by destruct Hne.
    + destruct (Nat.eqb_spec (Py.count "/" r) 0) as [Hc|Hc]; cbn [negb].
      * split; [by intros [= <-]|]. intros (Heq & _ & _).
        by apply (inj (String.append _)) in Heq as ->.
      * split; [discriminate|]. intros (Heq & _ & Hcount).
        apply (inj (String.append _)) in Heq as <-. by destruct Hc.
  - split; [discriminate|]. intros (Heq & _ & _).
    apply strip_prefix_Some in Heq. congruence.
Qed.

Lemma count_zero_relative (entry : string) :
  Py.count "/" entry = 0 → ∀ b', entry ≠ String "/" b'.
Proof. intros Hcount b' ->. cbn in Hcount. lia. Qed.

Lemma entry_of_path_join (folder path entry : string) :
  entry_of folder path = Some entry → Py.path_join folder entry = path.
Proof.
  intros (-> & _ & Hcount)%entry_of_Some.
  by apply path_join_relative, count_zero_relative.
Qed.

Lemma endswith_append (a b : string) : Py.endswith (a +:+ b) b = true.
Proof.
  induction a as [|c a IH].
  - rewrite append_nil_l. destruct b; cbn [Py.endswith];
      by rewrite String.eqb_refl.
  - rewrite append_cons. cbn [Py.endswith]. rewrite IH. apply orb_true_r.
Qed.

(** One round of the loop removes the record of a [.pid] entry, whether
    the daemon's [stop] removed it, left it behind, or found none. *)
Lemma reset_entry_records (entry : string) (w : world) :
  pid_records (snd (reset_entry module_dir cleans entry w))
  = if Py.endswith entry ".pid"
    then delete (Py.path_join (PID_FOLDER module_dir) entry) (pid_records w)
    else pid_records w.
Proof.
  unfold reset_entry. destruct (Py.endswith entry ".pid"); [|reflexivity].
  unfold bind, daemon_stop_with, path_exists, os_remove, ret.
  cbn [pidfile pid_records].
  destruct (cleans _).
  - rewrite bool_decide_eq_false_2.
    + reflexivity.
    + rewrite lookup_delete_eq. by intros [? ?].
  - case_bool_decide as Hexists; cbn [snd pid_records]; [reflexivity|].
    symmetry. apply delete_id.
    destruct (pid_records w !! _) eqn:Hlookup; [|done].
    destruct Hexists. by eexists.
Qed.

Lemma for_each_cons {A : Type} (x : A) (l : list A) (body : A → cmd unit)
    (w : world) :
  for_each (x :: l) body w = for_each l body (snd (body x w)).
Proof.
  cbn [for_each]. unfold bind. by destruct (body x w) as [[] w'].
Qed.

(** The loop over the entries removes the records of the [.pid] entries
    among them and no other record. *)
Lemma for_each_reset_lookup (entries : list string) :
  ∀ (w : world) (path : string),
    pid_records (snd (for_each entries (reset_entry module_dir cleans) w)) !! path
    = if decide (Exists (λ entry, Py.endswith entry ".pid" = true
                                  ∧ Py.path_join (PID_FOLDER module_dir) entry = path)
                   entries)
      then None else pid_records w !! path.
Proof.
  induction entries as [|entry entries IH]; intros w path.
  - cbn [for_each ret snd]. case_decide as Hex; [|reflexivity].
    by apply Exists_nil in Hex.
  - rewrite for_each_cons, IH, reset_entry_records.
    repeat case_decide; try reflexivity.
    + destruct H0. by apply Exists_cons_tl.
    + apply Exists_cons in H0 as [[Hends <-]|Hex]; [|done].
      rewrite Hends. apply lookup_delete_eq.
    + destruct (Py.endswith entry ".pid") eqn:Hends; [|reflexivity].
      apply lookup_delete_ne. intros Heq. destruct H0.
      by apply Exists_cons_hd.
Qed.

(** The pid records after [reset]. *)
Lemma reset_lookup (w : world) (path : string) :
  fst (reset module_dir cleans w) = Return
  ∧ pid_records (snd (reset module_dir cleans w)) !! path
    = match entry_of (PID_FOLDER module_dir) path with
      | Some entry =>
          if Py.endswith entry ".pid" then None else pid_records w !! path
      | None => pid_records w !! path
      end.
Proof.
  unfold reset, bind, listdir, ret.
  destruct (for_each _ _ w) as [[] w'] eqn:Hloop. cbn [fst snd]. split; [done|].
  replace w' with (snd (for_each
    (omap (entry_of (PID_FOLDER module_dir)) (elements (dom (pid_records w))))
    (reset_entry module_dir cleans) w)) by (by rewrite Hloop).
  rewrite for_each_reset_lookup.
  case_decide as Hex.
  - apply Exists_exists in Hex as (entry & Hin & Hends & Hpath).
    apply list_elem_of_omap in Hin as (key & Hkey & Hentry).
    apply entry_of_path_join in Hentry as Hjoin.
    assert (key = path) as -> by congruence.
    by rewrite Hentry, Hends.
  - destruct (entry_of (PID_FOLDER module_dir) path) as [entry|] eqn:Hentry;
      [|reflexivity].
    destruct (Py.endswith entry ".pid") eqn:Hends; [|reflexivity].
    destruct (pid_records w !! path) as [d|] eqn:Hlookup; [|reflexivity].
    destruct Hex. apply Exists_exists. exists entry. split_and!.
    + apply list_elem_of_omap. exists path. split; [|done].
      apply elem_of_elements, elem_of_dom. by eexists.
    + done.
    + by apply entry_of_path_join.
Qed.

(** X8: [reset] returns with every pid file of the pid folder whose name ends
    in [.pid] removed, whatever the daemons' [stop] left behind, and with
    every other record as it was. *)
Theorem reset_records (w : world) (path : string) :
  fst (reset module_dir cleans w) = Return
  ∧ (∀ entry, entry_of (PID_FOLDER module_dir) path = Some entry →
       Py.endswith entry ".pid" = true →
       pid_records (snd (reset module_dir cleans w)) !! path = None)
  ∧ ((∀ entry, entry_of (PID_FOLDER module_dir) path = Some entry →
        Py.endswith entry ".pid" = false) →
     pid_records (snd (reset module_dir cleans w)) !! path
     = pid_records w !! path).
Proof.
  destruct (reset_lookup w path) as [Hreturn Hlookup].
  split_and!; [exact Hreturn| |].
  - intros entry Hentry Hends. by rewrite Hlookup, Hentry, Hends.
  - intros Hother. rewrite Hlookup.
    destruct (entry_of (PID_FOLDER module_dir) path) as [entry|]; [|done].
    by rewrite (Hother entry eq_refl).
Qed.

(** The pid file of a network whose name has no slash is an entry of the
    pid folder ending in [.pid]. *)
Lemma entry_of_pidfile (name : string) :
  Py.count "/" name = 0 →
  entry_of (PID_FOLDER module_dir) (pidfile_of module_dir name)
  = Some ("simulaqron_network_" +:+ name +:+ ".pid").
Proof.
  intros Hname. apply entry_of_Some. split_and!.
  - apply pidfile_of_prefix.
  - rewrite append_cons. discriminate.
  - rewrite !count_append, Hname. reflexivity.
Qed.

(** X9: After [reset] no network whose name has no slash is recorded as
    running, so a [start] of any such name starts its daemon and a [stop]
    only warns. *)
Theorem start_after_reset
    (name : option string) (nrnodes : option Z) (nodes topology : option string)
    (w : world) :
  Py.count "/" (name_or_default name) = 0 →
  pid_records (snd (reset module_dir cleans w))
    !! pidfile_of module_dir (name_or_default name) = None
  ∧ start module_dir name nrnodes nodes topology (snd (reset module_dir cleans w))
    = (Return,
       World (<[pidfile_of module_dir (name_or_default name) :=
                  Daemon (pidfile_of module_dir (name_or_default name))
                    (Some (name_or_default name)) nrnodes nodes topology]>
                (pid_records (snd (reset module_dir cleans w))))
         (effects (snd (reset module_dir cleans w)) ++
          [SetupCqcFiles;
           DaemonStart (Daemon (pidfile_of module_dir (name_or_default name))
                          (Some (name_or_default name)) nrnodes nodes topology)])).
Proof.
  intros Hname.
  assert (Habsent :
    pid_records (snd (reset module_dir cleans w))
      !! pidfile_of module_dir (name_or_default name) = None).
  { rewrite (proj2 (reset_lookup w _)), (entry_of_pidfile _ Hname).
    by rewrite <- append_assoc, endswith_append. }
  split; [exact Habsent|].
  by rewrite start_fresh.
Qed.

End ResetProperties.

(** Witness of [start_after_reset]: the default network after a [reset]
    whose daemons left their pid files behind. *)
Lemma start_after_reset_witness :
  SimulaQron.pid_records
    (snd (SimulaQron.reset "/opt/simulaqron" (λ _, false)
            (SimulaQron.default_running "/opt/simulaqron")))
    !! SimulaQron.pidfile_of "/opt/simulaqron" (SimulaQron.name_or_default None)
  = None.
Proof.
  exact (proj1 (start_after_reset "/opt/simulaqron" (λ _, false) None None None None
                  (SimulaQron.default_running "/opt/simulaqron") eq_refl)).
Defined.

Example reset_removes_stale_record :
  SimulaQron.pid_records
    (snd (SimulaQron.reset "/opt/simulaqron" (λ _, false)
            (SimulaQron.default_running "/opt/simulaqron")))
  = ∅.
Proof. vm_compute. reflexivity. Qed.

(** ** The line [nodes get] prints *)

Section NodesGet.

Import SimulaQron.

Lemma format_field (template a : string) (args : list string) :
  Py.format ("{}" +:+ template) (a :: args)
  = String.append a <$> Py.format template args.
Proof. reflexivity. Qed.

Lemma format_space (template : string) (args : list string) :
  Py.format (" " +:+ template) args = String " " <$> Py.format template args.
Proof. reflexivity. Qed.

Lemma drop_last_append (a r : string) :
  r ≠ "" → Py.drop_last (a +:+ r) = a +:+ Py.drop_last r.
Proof.
  intros Hr. induction a as [|c a IH]; [reflexivity|].
  rewrite !append_cons. cbn [Py.drop_last]. rewrite IH.
  destruct (a +:+ r) eqn:Happ; [|reflexivity].
  destruct a; [by rewrite append_nil_l in Happ|by rewrite append_cons in Happ].
Qed.

(** The template of [n + 1] fields without its last character. *)
Lemma drop_last_template (n : nat) :
  Py.drop_last (Py.repeat_str "{} " (S n)) = "{}" +:+ Py.repeat_str " {}" n.
Proof.
  induction n as [|n IH]; [reflexivity|].
  change (Py.repeat_str "{} " (S (S n)))
    with ("{} " +:+ Py.repeat_str "{} " (S n)).
  rewrite drop_last_append by (cbn [Py.repeat_str]; by rewrite append_cons).
  rewrite IH. reflexivity.
Qed.

Lemma format_fields (rest : list string) :
  ∀ a, Py.format ("{}" +:+ Py.repeat_str " {}" (length rest)) (a :: rest)
       = Some (Py.join " " (a :: rest)).
Proof.
  induction rest as [|b rest IH]; intros a.
  - cbn [length Py.repeat_str]. rewrite format_field. cbn [Py.format fmap option_fmap option_map].
    by rewrite append_nil_r.
  - cbn [length Py.repeat_str]. rewrite format_field.
    change (" {}" +:+ Py.repeat_str " {}" (length rest))
      with (" " +:+ ("{}" +:+ Py.repeat_str " {}" (length rest))).
    rewrite format_space, IH. reflexivity.
Qed.

(** X10: [nodes get] never fails in [format] and prints the names separated by
    single spaces, with no space at the end and an empty line for no node,
    whatever characters the names contain. *)
Theorem nodes_get_prints (nodes : list string) :
  nodes_get nodes = Some (Py.join " " nodes).
Proof.
  unfold nodes_get. destruct nodes as [|a rest]; [reflexivity|].
  cbn [length]. rewrite drop_last_template. apply format_fields.
Qed.

Example nodes_get_braces :
  nodes_get ["Alice"; "{0}"; "Bob"] = Some "Alice {0} Bob".
Proof. reflexivity. Qed.

End NodesGet.

(** ** The [set] group *)

Section SetGroupProperties.

Import SimulaQron.

Variable float : Type.
Variable str : float → string.

(** An invocation stores its string under each setting it writes and
    leaves the others. *)
Lemma run_set_lookup (c : set_command float) (s : settings) (k : string * string) :
  run_set float str c s !! k
  = if decide (k ∈ written float c) then Some (stored float str c) else s !! k.
Proof.
  destruct c; cbn [run_set written stored];
    unfold backend, max_qubits, max_registers, conn_retry_time, recv_timeout,
      recv_retry_time, log_level, topology_file, app_file, cqc_file,
      vnode_file, nodes_file, noisy_qubits, t1;
    try destruct (String.eqb value "on");
    rewrite !set_setting_lookup;
    repeat case_decide; try reflexivity; exfalso;
    set_unfold; intuition congruence.
Qed.

(** Invocations of different commands write different settings. *)
Lemma written_disjoint (c1 c2 : set_command float) (k : string * string) :
  command_of float c1 ≠ command_of float c2 →
  k ∈ written float c1 → k ∈ written float c2 → False.
Proof.
  destruct c1, c2; cbn [command_of written]; intros Hne H1 H2;
    try (by destruct Hne);
    set_unfold; intuition congruence.
Qed.

(** Invocations of the same command write the same settings. *)
Lemma written_same (c1 c2 : set_command float) :
  command_of float c1 = command_of float c2 →
  written float c1 = written float c2.
Proof. destruct c1, c2; cbn [command_of written]; by intros [=]. Qed.

(** X11: Different settings can be set in either order: two invocations of
    different commands of the [set] group ([default] apart) commute. *)
Theorem set_commands_commute (c1 c2 : set_command float) (s : settings) :
  command_of float c1 ≠ command_of float c2 →
  run_set float str c1 (run_set float str c2 s)
  = run_set float str c2 (run_set float str c1 s).
Proof.
  intros Hne. apply map_eq. intros k. rewrite !run_set_lookup.
  repeat case_decide; try reflexivity.
  by destruct (written_disjoint c1 c2 k).
Qed.

(** X12: The last invocation of a command wins: a second invocation of the same
    command overwrites everything the first one stored. *)
Theorem set_command_overwrites (c1 c2 : set_command float) (s : settings) :
  command_of float c1 = command_of float c2 →
  run_set float str c1 (run_set float str c2 s) = run_set float str c1 s.
Proof.
  intros Hsame%written_same. apply map_eq. intros k.
  rewrite !run_set_lookup, Hsame.
  repeat case_decide; reflexivity.
Qed.

(** X13: The numeral [set max_qubits] and [set max_registers] store determines
    the number: different numbers are stored as different strings. *)
Theorem integer_settings_injective (n m : Z) (s s' : settings) :
  (max_qubits n s !! ("BACKEND", "maxqubits_per_node")
   = max_qubits m s' !! ("BACKEND", "maxqubits_per_node") → n = m)
  ∧ (max_registers n s !! ("BACKEND", "maxregs_per_node")
     = max_registers m s' !! ("BACKEND", "maxregs_per_node") → n = m).
Proof.
  unfold max_qubits, max_registers, set_setting.
  rewrite !lookup_insert_eq.
  split; intros [= Heq]; by apply (inj pretty) in Heq.
Qed.

End SetGroupProperties.

(** Witness of [set_commands_commute]: the backend and the qubit limit. *)
Lemma set_commands_commute_witness :
  SimulaQron.run_set string id (SimulaQron.SetBackend string "qutip")
    (SimulaQron.run_set string id (SimulaQron.SetMaxQubits string 20%Z) ∅)
  = SimulaQron.run_set string id (SimulaQron.SetMaxQubits string 20%Z)
      (SimulaQron.run_set string id (SimulaQron.SetBackend string "qutip") ∅).
Proof.
  assert (Hne : SimulaQron.command_of string (SimulaQron.SetBackend string "qutip")
                ≠ SimulaQron.command_of string (SimulaQron.SetMaxQubits string 20%Z))
    by discriminate.
  exact (set_commands_commute string id _ _ ∅ Hne).
Defined.

(** Witness of [set_command_overwrites]: the log level set twice. *)
Lemma set_command_overwrites_witness :
  SimulaQron.run_set string id (SimulaQron.SetLogLevel string "debug")
    (SimulaQron.run_set string id (SimulaQron.SetLogLevel string "error") ∅)
  = SimulaQron.run_set string id (SimulaQron.SetLogLevel string "debug") ∅.
Proof.
  exact (set_command_overwrites string id
           (SimulaQron.SetLogLevel string "debug")
           (SimulaQron.SetLogLevel string "error") ∅ eq_refl).
Defined.

(** ** Stripping whitespace, and the neighbours of [nodes add] *)

Section Strip.

Import SimulaQron.

Lemma whitespace_nonempty (w : string) : w ∈ Py.whitespace → w ≠ "".
Proof.
  assert (Hall : Forall (λ w, w ≠ "") Py.whitespace).
  { unfold Py.whitespace. repeat (constructor; [discriminate|]). constructor. }
  intros Hw. by apply (proj1 (Forall_forall _ _) Hall).
Qed.

(** No whitespace character's encoding is the beginning of another's. *)
Lemma whitespace_prefix_free (w w' t t' : string) :
  w ∈ Py.whitespace → w' ∈ Py.whitespace →
  w +:+ t = w' +:+ t' → w = w' ∧ t = t'.
Proof.
  unfold Py.whitespace. intros Hw Hw' Heq.
  repeat (apply elem_of_cons in Hw as [->|Hw]);
    try (by apply elem_of_nil in Hw);
    repeat (apply elem_of_cons in Hw' as [->|Hw']);
    try (by apply elem_of_nil in Hw');
    cbv [String.append] in Heq; by simplify_eq.
Qed.

Lemma drop_first_Some (table : list string) (s r : string) :
  Py.drop_first table s = Some r → ∃ w, w ∈ table ∧ s = w +:+ r.
Proof.
  induction table as [|w table IH]; cbn [Py.drop_first]; [discriminate|].
  destruct (Py.strip_prefix w s) as [r'|] eqn:Hstrip.
  - intros [= ->]. exists w. split; [apply list_elem_of_here|].
    by apply strip_prefix_Some.
  - intros (w' & Hw' & ->)%IH. exists w'. split; [|done].
    by apply list_elem_of_further.
Qed.

Lemma drop_first_None (table : list string) (s : string) :
  Py.drop_first table s = None → ∀ w r, w ∈ table → s ≠ w +:+ r.
Proof.
  induction table as [|w table IH]; cbn [Py.drop_first].
  - by intros _ w r ?%elem_of_nil.
  - destruct (Py.strip_prefix w s) as [r'|] eqn:Hstrip; [discriminate|].
    intros Hnone w' r [->|Hw']%elem_of_cons.
    + intros Heq%strip_prefix_Some. congruence.
    + by apply IH.
Qed.

Lemma drop_first_whitespace (w t : string) :
  w ∈ Py.whitespace → Py.drop_first Py.whitespace (w +:+ t) = Some t.
Proof.
  intros Hw. destruct (Py.drop_first Py.whitespace (w +:+ t)) as [r|] eqn:Hdrop.
  - apply drop_first_Some in Hdrop as (w' & Hw' & Heq).
    by destruct (whitespace_prefix_free w w' t r Hw Hw' Heq) as [_ ->].
  - by destruct (drop_first_None _ _ Hdrop w t Hw).
Qed.

Lemma not_starts_with_space_drop (s : string) :
  ¬ Py.starts_with_space s ↔ Py.drop_first Py.whitespace s = None.
Proof.
  split.
  - intros Hnot. destruct (Py.drop_first Py.whitespace s) as [r|] eqn:Hdrop;
      [|done].
    apply drop_first_Some in Hdrop as (w & Hw & ->). destruct Hnot. by exists w, r.
  - intros Hdrop (w & r & Hw & ->). by destruct (drop_first_None _ _ Hdrop w r Hw).
Qed.

(** *** [lstrip] *)

Lemma lstrip_go_blank (fuel : nat) :
  ∀ s, ∃ a, Py.blank a ∧ s = a +:+ Py.lstrip_go fuel s.
Proof.
  induction fuel as [|fuel IH]; intros s; cbn [Py.lstrip_go].
  - exists "". split; [constructor|done].
  - destruct (Py.drop_first Py.whitespace s) as [r|] eqn:Hdrop.
    + apply drop_first_Some in Hdrop as (w & Hw & ->).
      destruct (IH r) as (a & Ha & Hr). exists (w +:+ a). split.
      * by constructor.
      * by rewrite append_assoc, <- Hr.
    + exists "". split; [constructor|done].
Qed.

Lemma lstrip_go_done (fuel : nat) :
  ∀ s, (String.length s ≤ fuel)%nat → ¬ Py.starts_with_space (Py.lstrip_go fuel s).
Proof.
  induction fuel as [|fuel IH]; intros s Hlen; cbn [Py.lstrip_go].
  - destruct s; [|cbn [String.length] in Hlen; lia].
    intros (w & r & Hw & Heq). apply (whitespace_nonempty w Hw).
    destruct w; [done|by rewrite append_cons in Heq].
  - destruct (Py.drop_first Py.whitespace s) as [r|] eqn:Hdrop.
    + apply IH. apply drop_first_Some in Hdrop as (w & Hw & ->).
      rewrite length_append in Hlen.
      pose proof (whitespace_nonempty w Hw).
      destruct w; [done|]. cbn [String.length] in Hlen. lia.
    + by apply not_starts_with_space_drop.
Qed.

Lemma lstrip_go_fixed (fuel : nat) (s : string) :
  ¬ Py.starts_with_space s → Py.lstrip_go fuel s = s.
Proof.
  intros Hnot%not_starts_with_space_drop.
  destruct fuel; cbn [Py.lstrip_go]; [done|]. by rewrite Hnot.
Qed.

Lemma lstrip_go_all_blank (s : string) :
  Py.blank s → ∀ fuel, (String.length s ≤ fuel)%nat → Py.lstrip_go fuel s = "".
Proof.
  induction 1 as [|w r Hw Hr IH]; intros fuel Hlen.
  - apply lstrip_go_fixed. intros (w & r & Hw & Heq).
    apply (whitespace_nonempty w Hw).
    destruct w; [done|by rewrite append_cons in Heq].
  - rewrite length_append in Hlen.
    pose proof (whitespace_nonempty w Hw) as Hne.
    destruct fuel as [|fuel].
    { destruct w; [done|]. cbn [String.length] in Hlen. lia. }
    cbn [Py.lstrip_go]. rewrite drop_first_whitespace by done.
    apply IH. destruct w; [done|]. cbn [String.length] in Hlen. lia.
Qed.

Lemma all_space_blank (s : string) : Py.all_space s = true ↔ Py.blank s.
Proof.
  unfold Py.all_space, Py.lstrip. rewrite String.eqb_eq. split.
  - intros Hempty.
    destruct (lstrip_go_blank (String.length s) s) as (a & Ha & Hs).
    rewrite Hempty, append_nil_r in Hs. by subst.
  - intros Hblank. by apply lstrip_go_all_blank.
Qed.

(** *** [rstrip] *)

Lemma rstrip_split (s : string) : ∃ t, Py.blank t ∧ s = Py.rstrip s +:+ t.
Proof.
  induction s as [|c s IH]; cbn [Py.rstrip].
  - exists "". split; [constructor|done].
  - destruct (Py.all_space (String c s)) eqn:Hspace.
    + exists (String c s). split; [by apply all_space_blank|done].
    + destruct IH as (t & Ht & Hs). exists t. split; [done|].
      by rewrite append_cons, <- Hs.
Qed.

Lemma rstrip_no_trailing (s : string) : ¬ Py.ends_with_space (Py.rstrip s).
Proof.
  induction s as [|c s IH]; cbn [Py.rstrip]; intros (r & w & Hw & Heq).
  - apply (whitespace_nonempty w Hw).
    destruct r; [by rewrite append_nil_l in Heq|by rewrite append_cons in Heq].
  - destruct (Py.all_space (String c s)) eqn:Hspace.
    + apply (whitespace_nonempty w Hw).
      destruct r; [by rewrite append_nil_l in Heq|by rewrite append_cons in Heq].
    + destruct r as [|c' r].
      * rewrite append_nil_l in Heq.
        destruct (rstrip_split s) as (t & Ht & Hs).
        assert (Hblank : Py.blank (String c s)).
        { rewrite Hs, <- append_cons, Heq. by constructor. }
        apply all_space_blank in Hblank. congruence.
      * rewrite append_cons in Heq. injection Heq as -> Heq.
        apply IH. by exists r, w.
Qed.

Lemma blank_ends (s : string) :
  Py.blank s → s ≠ "" → Py.ends_with_space s.
Proof.
  induction 1 as [|w r Hw Hr IH]; intros Hne; [done|].
  destruct (decide (r = "")) as [->|Hr'].
  - exists "", w. by rewrite append_nil_r, append_nil_l.
  - destruct (IH Hr') as (r0 & w0 & Hw0 & ->).
    exists (w +:+ r0), w0. by rewrite append_assoc.
Qed.

Lemma rstrip_fixed (s : string) : ¬ Py.ends_with_space s → Py.rstrip s = s.
Proof.
  induction s as [|c s IH]; intros Hnot; cbn [Py.rstrip]; [done|].
  destruct (Py.all_space (String c s)) eqn:Hspace.
  - destruct Hnot. apply blank_ends; [by apply all_space_blank|done].
  - rewrite IH; [done|]. intros (r & w & Hw & ->).
    apply Hnot. exists (String c r), w. by rewrite append_cons.
Qed.

(** *** [strip] *)

Lemma strip_clean (s : string) :
  ¬ Py.starts_with_space (Py.strip s) ∧ ¬ Py.ends_with_space (Py.strip s).
Proof.
  unfold Py.strip. split; [|apply rstrip_no_trailing].
  intros (w & r & Hw & Heq).
  destruct (rstrip_split (Py.lstrip s)) as (t & Ht & Hl).
  apply (lstrip_go_done (String.length s) s); [done|].
  fold (Py.lstrip s). exists w, (r +:+ t).
  split; [done|]. by rewrite Hl, Heq, append_assoc.
Qed.

Lemma strip_inside (s : string) :
  ∃ a t, Py.blank a ∧ Py.blank t ∧ s = a +:+ Py.strip s +:+ t.
Proof.
  destruct (lstrip_go_blank (String.length s) s) as (a & Ha & Hs).
  destruct (rstrip_split (Py.lstrip s)) as (t & Ht & Hl).
  exists a, t. split_and!; [done..|].
  unfold Py.strip. by rewrite <- Hl.
Qed.

Lemma strip_fixed (s : string) :
  ¬ Py.starts_with_space s → ¬ Py.ends_with_space s → Py.strip s = s.
Proof.
  intros Hstart Hend. unfold Py.strip, Py.lstrip.
  rewrite lstrip_go_fixed by done. by apply rstrip_fixed.
Qed.

Lemma strip_count (c : ascii) (s : string) :
  (Py.count c (Py.strip s) ≤ Py.count c s)%nat.
Proof.
  destruct (strip_inside s) as (a & t & _ & _ & Hs).
  rewrite Hs at 2. rewrite !count_append. lia.
Qed.

(** *** Splitting a joined list *)

Lemma split_no_sep_id (sep : ascii) (x : string) :
  Py.count sep x = 0 → Py.split sep x = [x].
Proof.
  induction x as [|c x IH]; [done|].
  cbn [Py.count Py.split]. destruct (Ascii.eqb c sep); [intros; lia|].
  intros Hcount. by rewrite IH.
Qed.

Lemma split_append (sep : ascii) (x rest : string) :
  Py.count sep x = 0 →
  Py.split sep (x +:+ String sep rest) = x :: Py.split sep rest.
Proof.
  induction x as [|c x IH].
  - intros _. rewrite append_nil_l. cbn [Py.split]. by rewrite Ascii.eqb_refl.
  - cbn [Py.count]. rewrite append_cons. cbn [Py.split].
    destruct (Ascii.eqb c sep); [intros; lia|].
    intros Hcount. by rewrite IH.
Qed.

(** Splitting the join of fields without separators gives the fields. *)
Lemma join_split (sep : ascii) (l : list string) :
  l ≠ [] → Forall (λ x, Py.count sep x = 0) l →
  Py.split sep (Py.join (String sep "") l) = l.
Proof.
  induction l as [|x l IH]; [done|]. intros _ Hall.
  apply Forall_cons in Hall as [Hx Hl].
  destruct l as [|y l].
  - by apply split_no_sep_id.
  - change (Py.join (String sep "") (x :: y :: l))
      with (x +:+ String sep "" +:+ Py.join (String sep "") (y :: l)).
    rewrite append_cons, append_nil_l, split_append by done.
    by rewrite IH.
Qed.

(** *** [nodes add] *)

(** The stripped fields of a string: at least one, each free of commas and
    of whitespace at its ends. *)
Lemma stripped_fields_clean (given : string) :
  Py.strip <$> Py.split "," given ≠ []
  ∧ Forall (λ nb, Py.count "," nb = 0
                  ∧ ¬ Py.starts_with_space nb
                  ∧ ¬ Py.ends_with_space nb)
      (Py.strip <$> Py.split "," given).
Proof.
  split.
  - intros Hnil%fmap_nil_inv. by apply split_nonempty in Hnil.
  - apply Forall_fmap. eapply Forall_impl; [apply (split_no_sep "," given)|].
    intros field Hfield. unfold compose. cbv beta in Hfield |- *. split_and!.
    + pose proof (strip_count "," field). lia.
    + apply strip_clean.
    + apply strip_clean.
Qed.

(** X14: Without [--neighbors], [nodes add] hands [None] to [add_node]; with it,
    the comma-separated fields of the option, each stripped: one name more
    than there are commas (never none, empty names included), each free of
    commas and of whitespace at its ends. *)
Theorem nodes_add_neighbors (name : string) (hostname : option string)
    (app_port cqc_port vnode_port : option Z) :
  an_neighbors (nodes_add name hostname app_port cqc_port vnode_port None) = None
  ∧ ∀ given, ∃ nbs,
      an_neighbors (nodes_add name hostname app_port cqc_port vnode_port (Some given))
      = Some nbs
      ∧ length nbs = S (Py.count "," given)
      ∧ Forall (λ nb, Py.count "," nb = 0
                      ∧ ¬ Py.starts_with_space nb
                      ∧ ¬ Py.ends_with_space nb) nbs.
Proof.
  split; [reflexivity|]. intros given. eexists. split; [reflexivity|].
  split.
  - by rewrite length_fmap, split_length.
  - apply stripped_fields_clean.
Qed.

(** X15: The neighbours [nodes add] hands over are in normal form: given again,
    joined by commas, they come out unchanged. *)
Theorem nodes_add_normal_form (name : string) (hostname : option string)
    (app_port cqc_port vnode_port : option Z) (given : string) (nbs : list string) :
  an_neighbors (nodes_add name hostname app_port cqc_port vnode_port (Some given))
  = Some nbs →
  nodes_add name hostname app_port cqc_port vnode_port (Some (Py.join "," nbs))
  = nodes_add name hostname app_port cqc_port vnode_port (Some given).
Proof.
  destruct (stripped_fields_clean given) as (Hne & Hclean).
  unfold nodes_add. cbn [an_neighbors]. intros [= <-]. do 2 f_equal.
  rewrite join_split; [|done|].
  - apply list_eq. intros i. rewrite list_lookup_fmap.
    destruct ((Py.strip <$> Py.split "," given) !! i) as [nb|] eqn:Hnb; [|done].
    cbn. f_equal. apply list_elem_of_lookup_2 in Hnb.
    apply (proj1 (Forall_forall _ _) Hclean) in Hnb as (_ & Hstart & Hend).
    by apply strip_fixed.
  - eapply Forall_impl; [exact Hclean|]. by intros nb (Hcount & _).
Qed.

End Strip.

Example strip_ascii : Py.strip "  Bob	 " = "Bob".
Proof. vm_compute. reflexivity. Qed.

Example strip_no_break_space :
  Py.strip (Py.bytes [194; 160; 66; 111; 98; 226; 128; 137]) = "Bob".
Proof. vm_compute. reflexivity. Qed.

Example nodes_add_strips :
  SimulaQron.an_neighbors
    (SimulaQron.nodes_add "Alice" None None None None (Some " Bob, Charlie,,"))
  = Some ["Bob"; "Charlie"; ""; ""].
Proof. vm_compute. reflexivity. Qed.

(** Witness of [nodes_add_normal_form]: names given with spaces. *)
Lemma nodes_add_normal_form_witness :
  SimulaQron.nodes_add "Alice" None None None None
    (Some (Py.join "," ["Bob"; "Charlie"]))
  = SimulaQron.nodes_add "Alice" None None None None (Some " Bob, Charlie").
Proof.
  assert (Hgiven :
    SimulaQron.an_neighbors
      (SimulaQron.nodes_add "Alice" None None None None (Some " Bob, Charlie"))
    = Some ["Bob"; "Charlie"]).
  { vm_compute. reflexivity. }
  exact (nodes_add_normal_form "Alice" None None None None " Bob, Charlie"
           ["Bob"; "Charlie"] Hgiven).
Defined.

(** ** When [run] hands [Network] an empty list *)

Section RunNodesEmpty.

Import SimulaQron.

Lemma explicit_nodes_nil (d : SimulaQronDaemon) :
  explicit_nodes d = [] ↔ Py.truthy_str (nodes d) = false.
Proof.
  unfold explicit_nodes. destruct (nodes d) as [[|c s]|]; cbn [Py.truthy_str];
    [done| |done].
  split; [|discriminate]. intros Hnil. by apply split_nonempty in Hnil.
Qed.

Lemma padding_nil (d : SimulaQronDaemon) (listed : list string) :
  padding d listed = [] ↔ (default 0%Z (nrnodes d) ≤ Z.of_nat (length listed))%Z.
Proof.
  rewrite <- length_zero_iff_nil, padding_length. lia.
Qed.

(** X3: [run] hands [Network] the empty list, rather than [None] or an error,
    exactly when no name is listed and either [nrnodes] is negative or
    [nrnodes] is absent or zero and a topology is given. *)
Theorem run_nodes_empty_list (d : SimulaQronDaemon) :
  run_nodes d = NodesList [] ↔
  Py.truthy_str (nodes d) = false
  ∧ ((default 0%Z (nrnodes d) < 0)%Z
     ∨ (Py.truthy_int (nrnodes d) = false ∧ Py.truthy_str (topology d) = true)).
Proof.
  unfold run_nodes.
  assert (Hint : Py.truthy_int (nrnodes d) = false ↔ default 0%Z (nrnodes d) = 0%Z).
  { destruct (nrnodes d) as [n|]; cbn [Py.truthy_int default from_option id];
      [|done].
    destruct (Z.eqb_spec n 0); cbn [negb]; split; congruence. }
  destruct (Py.truthy_int (nrnodes d)) eqn:Hnr; cbn [orb].
  - split.
    + intros [= Happ]. apply app_eq_nil in Happ as [Hlisted Hpad].
      split; [by apply explicit_nodes_nil|]. left.
      apply padding_nil in Hpad. rewrite Hlisted in Hpad. cbn [length] in Hpad.
      assert (default 0%Z (nrnodes d) ≠ 0%Z) by (intros H0%Hint; congruence).
      lia.
    + intros [Hnodes [Hneg|[? _]]]; [|congruence].
      apply explicit_nodes_nil in Hnodes. rewrite Hnodes.
      f_equal. cbn [app]. apply padding_nil. cbn [length]. lia.
  - assert (Hzero : default 0%Z (nrnodes d) = 0%Z) by by apply Hint.
    destruct (Py.truthy_str (nodes d)) eqn:Hnodes; cbn [orb].
    + split; [|by intros [? _]].
      intros [= Happ]. apply app_eq_nil in Happ as [Hlisted _].
      apply explicit_nodes_nil in Hlisted. congruence.
    + destruct (Py.truthy_str (topology d)) eqn:Htopology.
      * split; [intros _; split; [done|by right]|]. intros _.
        assert (Hlisted : explicit_nodes d = []) by by apply explicit_nodes_nil.
        rewrite Hlisted. f_equal. cbn [app]. apply padding_nil. lia.
      * split.
        -- destruct (nodes d); discriminate.
        -- intros [_ [Hneg|[_ ?]]]; [lia|discriminate].
Qed.

Example run_nodes_negative :
  run_nodes (Daemon "p" (Some "default") (Some (-1)%Z) None None) = NodesList [].
Proof. reflexivity. Qed.

End RunNodesEmpty.

(** Witness of [reset_records]: the stale record of the default network,
    an entry of the pid folder ending in [.pid], is gone after [reset]. *)
Lemma reset_records_witness :
  SimulaQron.pid_records
    (snd (SimulaQron.reset "/opt/simulaqron" (λ _, false)
            (SimulaQron.default_running "/opt/simulaqron")))
    !! "/opt/simulaqron/.simulaqron_pids/simulaqron_network_default.pid"
  = None.
Proof.
  exact (proj1 (proj2 (reset_records "/opt/simulaqron" (λ _, false)
                         (SimulaQron.default_running "/opt/simulaqron")
                         "/opt/simulaqron/.simulaqron_pids/simulaqron_network_default.pid"))
           "simulaqron_network_default.pid" eq_refl eq_refl).
Defined.
